(** * Profiler core of the ingestion framework: metric compilation,
      sampling and the threaded SQLAlchemy profiler interface.

    Shallow embedding of

    - [metadata/ingestion/api/status.py], [metadata/ingestion/api/processor.py]
    - [metadata/profiler/metrics/static/{mean,sum,stddev,min}.py]
    - [metadata/profiler/orm/functions/median.py]
    - [metadata/profiler/processor/sampler/sampler_interface.py]
    - [metadata/profiler/processor/sampler/sqlalchemy/sampler.py]
    - [metadata/profiler/interface/sqlalchemy/profiler_interface.py]

    Python dictionaries are finite maps ([gmap]), exceptions are an explicit
    outcome type, mutable objects (processor status, session, logger) are
    threaded through a small state-and-exception monad, and everything the
    database answers is an oracle carried by the runner. *)

From Stdlib Require Import ZArith QArith Qround String List Bool Lia Lqa.
From stdpp Require Import gmap strings list fin_maps sorting pretty.

Set Warnings "-register-all".

Open Scope string_scope.

(** ** Python values appearing in result rows and profiles *)

Inductive Value : Type :=
| VNone
| VInt (z : Z)
| VReal (q : Q)
| VStr (s : string)
| VList (l : list Value)
| VDict (d : gmap string Value).

(** A SQLAlchemy result row: column keys with their values, in select order. *)
Definition Row : Type := list (string * Value).

(** [dict(row)]: later bindings of a key replace earlier ones. *)
Definition dict (row : Row) : gmap string Value :=
  fold_left (fun m kv => <[kv.1 := kv.2]> m) row ∅.

(** [d.update(e)]: bindings of [e] win. *)
Definition dict_update (d e : gmap string Value) : gmap string Value := e ∪ d.

(** Truthiness of an optional string ([None] and the empty string are falsy). *)
Definition truthy_str (o : option string) : bool :=
  match o with
  | Some s => negb (String.eqb s "")
  | None => false
  end.

(** ** Exceptions and outcomes *)

(** The driver's own error behind a SQLAlchemy exception: the name of its
    class and its [errno] attribute, which some drivers do not define. *)
Record DBAPIError : Type := mkDBAPIError {
  dbapi_class : string;
  dbapi_errno : option Z
}.

Inductive Exc : Type :=
| ProgrammingError (orig : option DBAPIError) (msg : string)
    (* sqlalchemy.exc.ProgrammingError; [orig] is [exc.orig], the DBAPI
       error, [None] when there is none *)
| PyError (cls msg : string)
    (* any other subclass of Exception *)
| RuntimeError (cause : Exc).
    (* RuntimeError(exc) *)

Fixpoint exc_str (e : Exc) : string :=
  match e with
  | ProgrammingError _ msg => msg
  | PyError _ msg => msg
  | RuntimeError c => exc_str c
  end.

Definition exc_cls (e : Exc) : string :=
  match e with
  | ProgrammingError _ _ => "ProgrammingError"
  | PyError cls _ => cls
  | RuntimeError _ => "RuntimeError"
  end.

(** [traceback.format_exc()], of which only the closing line is kept. *)
Definition format_exc (e : Exc) : string := exc_cls e ++ ": " ++ exc_str e.

Inductive Outcome (A : Type) : Type :=
| Returns (a : A)
| Raises (e : Exc).
Arguments Returns {A} a.
Arguments Raises {A} e.

(** ** ingestion/api/status.py and ingestion/api/processor.py *)

Module StatusApi.

Record StackTraceError : Type := mkStackTraceError {
  name : string;
  error : string;
  stack_trace : option string
}.

(** [Status] with the [entity] field of [ProfilerProcessorStatus]. *)
Record Status : Type := mkStatus {
  records : list string;
  warnings : list string;
  failures : list StackTraceError;
  entity : option string
}.

Definition empty_status (ent : option string) : Status :=
  mkStatus [] [] [] ent.

Definition failed (self : Status) (nm err : string) (trace : option string)
  : Status :=
  mkStatus (records self) (warnings self)
           (failures self ++ [mkStackTraceError nm err trace])
           (entity self).

Definition fail_all (self : Status) (fs : list StackTraceError) : Status :=
  mkStatus (records self) (warnings self) (failures self ++ fs) (entity self).

(** [ProfilerProcessorStatus.scanned] *)
Definition scanned (self : Status) (record : string) : Status :=
  mkStatus (records self ++ [record]) (warnings self) (failures self)
           (entity self).

(** [ProfilerProcessorStatus.failed_profiler] *)
Definition failed_profiler (self : Status) (err : string)
  (trace : option string) : Status :=
  failed self
         (match entity self with
          | Some e => if truthy_str (Some e) then e else ""
          | None => ""
          end)
         err trace.

End StatusApi.

(** ** profiler/orm/registry.py (type families and dialect identifiers) *)

Module Registry.

Inductive TypeFamily : Type :=
| Quantifiable
| Concatenable
| DateTime
| OtherFamily.

(** A SQLAlchemy column type, as far as the profiler looks at it. *)
Record SqlType : Type := mkSqlType {
  type_name : string;
  family : TypeFamily;
  is_decimal : bool      (* isinstance(type, DECIMAL) *)
}.

(** Modelled from the spec: [is_quantifiable], [is_concatenable] and
    [is_date_time] are defined in profiler/orm/registry.py, which is not part
    of the profiled files.  A column type is "classified into type families
    (quantifiable/numeric, concatenable/text, date-time, other)". *)
Definition is_quantifiable (t : SqlType) : bool :=
  match family t with Quantifiable => true | _ => false end.

Definition is_concatenable (t : SqlType) : bool :=
  match family t with Concatenable => true | _ => false end.

Definition is_date_time (t : SqlType) : bool :=
  match family t with DateTime => true | _ => false end.

(** The members of the [Dialects] enumeration used by the profiled files;
    [OtherDialect] is any engine without an entry of its own. *)
Inductive Dialects : Type :=
| Athena | BigQuery | ClickHouse | Hive | Impala | MariaDB | MSSQL | MySQL
| Presto | Snowflake | SQLite | Trino
| OtherDialect (dialect_name : string).

#[global] Instance Dialects_eq_dec : EqDecision Dialects.
Proof. solve_decision. Defined.

End Registry.

(** ** profiler/metrics/static/{mean,sum,stddev,min}.py *)

Module Metrics.
Import Registry.

(** A table column as the metrics see it: [col.name], [col.type], and the
    table it is bound to ([str(col)] is [table.name] for a bound column). *)
Record Column : Type := mkColumn {
  col_name : string;
  col_type : SqlType;
  col_table : option string
}.

Definition column_str (c : Column) : string :=
  match col_table c with
  | Some t => t ++ "." ++ col_name c
  | None => col_name c
  end.

(** SQL expressions built by the static metrics. *)
Inductive SqlExpr : Type :=
| column (nm : string) (type_ : SqlType)   (* sqlalchemy.column(name, type) *)
| LenFn (e : SqlExpr)
| func_avg (e : SqlExpr)                   (* func.avg, class [avg] *)
| SumFn (e : SqlExpr)
| StdDevFn (e : SqlExpr)
| MinFn (e : SqlExpr)
| RawSql (sql : string).                   (* expression of another metric *)

(** The metric classes.  [Registered] stands for any other class of the metric
    registry, given by its [name()], its [is_window_metric()] and the body of
    its [fn]. *)
Inductive Metric : Type :=
| Mean
| Sum
| StdDev
| Min
| Registered (nm : string) (window : bool) (body : Column -> option SqlExpr).

Definition name (m : Metric) : string :=
  match m with
  | Mean => "mean"
  | Sum => "sum"
  | StdDev => "stddev"
  | Min => "min"
  | Registered nm _ _ => nm
  end.

(** [StaticMetric]s are not window metrics. *)
Definition is_window_metric (m : Metric) : bool :=
  match m with
  | Registered _ w _ => w
  | _ => false
  end.

(** [Mean.fn], before labelling *)
Definition Mean_fn (col : Column) : option SqlExpr :=
  if is_quantifiable (col_type col) then
    Some (func_avg (column (col_name col) (col_type col)))
  else if is_concatenable (col_type col) then
    Some (func_avg (LenFn (column (col_name col) (col_type col))))
  else None.

(** [Sum.fn], before labelling *)
Definition Sum_fn (col : Column) : option SqlExpr :=
  if is_quantifiable (col_type col) then
    Some (SumFn (column (col_name col) (col_type col)))
  else if is_concatenable (col_type col) then
    Some (SumFn (LenFn (column (col_name col) (col_type col))))
  else None.

(** [StdDev.fn], before labelling *)
Definition StdDev_fn (col : Column) : option SqlExpr :=
  if is_quantifiable (col_type col) then
    Some (StdDevFn (column (col_name col) (col_type col)))
  else if is_concatenable (col_type col) then
    Some (StdDevFn (LenFn (column (col_name col) (col_type col))))
  else None.

(** [Min.fn], before labelling *)
Definition Min_fn (col : Column) : option SqlExpr :=
  if is_concatenable (col_type col) then
    Some (MinFn (LenFn (column (col_name col) (col_type col))))
  else if negb (is_quantifiable (col_type col))
          && negb (is_date_time (col_type col)) then None
  else Some (MinFn (column (col_name col) (col_type col))).

(** The [@_label] decorator of metrics/core.py: a compiled expression is
    labelled with the metric's name, [None] stays [None]. *)
Definition _label (nm : string) (res : option SqlExpr)
  : option (string * SqlExpr) :=
  match res with
  | Some e => Some (nm, e)
  | None => None
  end.

(** [metric(column).fn()] *)
Definition fn (m : Metric) (col : Column) : option (string * SqlExpr) :=
  _label (name m)
    (match m with
     | Mean => Mean_fn col
     | Sum => Sum_fn col
     | StdDev => StdDev_fn col
     | Min => Min_fn col
     | Registered _ _ body => body col
     end).


(** *** The dataframe fallback [Mean.df_fn] *)

(** One column of a pandas dataframe chunk. *)
Inductive Series : Type :=
| NumSeries (cells : list (option Q))
| TextSeries (cells : list (option string)).

Definition dropna {A} (cells : list (option A)) : list A :=
  omap (fun c => c) cells.

Definition qsum (l : list Q) : Q := fold_right Qplus 0%Q l.

(** [Series.mean()]: the mean of the non-null cells, null when there is none. *)
Definition mean_of (l : list Q) : option Q :=
  match l with
  | [] => None
  | _ => Some (qsum l / inject_Z (Z.of_nat (length l)))%Q
  end.

Definition str_len (s : string) : Q := inject_Z (Z.of_nat (String.length s)).

(** One round of either loop of [df_fn]: the chunk's mean and weight. *)
Definition chunk_mean (quantifiable : bool) (df : Series)
  : Outcome (option (Q * Q)) :=
  match quantifiable, df with
  | true, NumSeries cells =>
      let vals := dropna cells in
      Returns (match mean_of vals with
               | Some m => Some (m, inject_Z (Z.of_nat (length vals)))
               | None => None
               end)
  | false, TextSeries cells =>
      let vals := dropna cells in
      match mean_of (map str_len vals) with
      | Some m => Returns (Some (m, inject_Z (Z.of_nat (length vals))))
      | None =>
          (* numpy.vectorize(len) refuses an input of size 0 *)
          Raises (PyError "ValueError"
                          "cannot call `vectorize` on size 0 inputs")
      end
  | true, TextSeries _ =>
      Raises (PyError "TypeError" "Could not convert to numeric")
  | false, NumSeries cells =>
      (* astype(str) of the numbers; their printed lengths are not modelled *)
      Raises (PyError "TypeError" "numeric chunk in a text column")
  end.

Fixpoint chunk_means (quantifiable : bool) (dfs : list Series)
  : Outcome (list (Q * Q)) :=
  match dfs with
  | [] => Returns []
  | df :: rest =>
      match chunk_mean quantifiable df with
      | Raises e => Raises e
      | Returns o =>
          match chunk_means quantifiable rest with
          | Raises e => Raises e
          | Returns l =>
              Returns (match o with Some mw => mw :: l | None => l end)
          end
      end
  end.

(** [numpy.average(means, weights=weights)] *)
Definition average (mws : list (Q * Q)) : Q :=
  (qsum (map (fun mw => mw.1 * mw.2) mws) / qsum (map snd mws))%Q.

(** [Mean.df_fn] *)
Definition Mean_df_fn (col : Column) (dfs : list Series)
  : Outcome (option Q) :=
  let q :=
    if is_quantifiable (col_type col) then chunk_means true dfs
    else Returns [] in
  match q with
  | Raises e => Raises e
  | Returns mq =>
      let c :=
        if is_concatenable (col_type col) then chunk_means false dfs
        else Returns [] in
      match c with
      | Raises e => Raises e
      | Returns mc =>
          match (mq ++ mc)%list with
          | [] => Returns None
          | mws => Returns (Some (average mws))
          end
      end
  end.

(** *** What the engine computes for a compiled aggregate *)

(** Modelled from the spec: the evaluation of a compiled metric is the
    database engine's and no file of the repository holds it.  Aggregates skip
    NULLs and are NULL over no value; [LenFn] is the "length transform" of a
    text value; [avg] and [sum] are the usual mean and sum, [min] the least
    value.  Expressions outside this fragment are not evaluated. *)
Inductive Cell : Type :=
| CNum (q : Q)
| CText (s : string).

Definition eval_scalar (e : SqlExpr) (c : Cell) : option Q :=
  match e with
  | column _ _ => match c with CNum q => Some q | CText _ => None end
  | LenFn (column _ _) =>
      match c with CText s => Some (str_len s) | CNum _ => None end
  | _ => None
  end.

Definition qmin_list (l : list Q) : option Q :=
  match l with
  | [] => None
  | x :: r => Some (fold_left (fun a b => if Qle_bool b a then b else a) r x)
  end.

Definition eval_aggregate (e : SqlExpr) (cells : list (option Cell))
  : option Q :=
  match e with
  | func_avg a => mean_of (omap (eval_scalar a) (dropna cells))
  | SumFn a =>
      match omap (eval_scalar a) (dropna cells) with
      | [] => None
      | l => Some (qsum l)
      end
  | MinFn a => qmin_list (omap (eval_scalar a) (dropna cells))
  | _ => None
  end.

End Metrics.

(** ** profiler/orm/functions/median.py *)

Module Median.
Import Registry.

(** The clauses of a [MedianFn(col, table, percentile)] element. *)
Inductive Clause : Type :=
| ColumnClause (nm : string) (type_ : SqlType)
| TextLiteral (value : string)
| NumLiteral (value : Q).

Record MedianFn : Type := mkMedianFn {
  clause0 : Clause;          (* elements.clauses.clauses[0], the column *)
  table_value : string;      (* elements.clauses.clauses[1].value *)
  percentile_value : Q       (* elements.clauses.clauses[2].value *)
}.

Definition clauses (el : MedianFn) : list Clause :=
  [clause0 el; TextLiteral (table_value el); NumLiteral (percentile_value el)].

Definition nl : string := String (Ascii.ascii_of_nat 10) "".

(** The lines of a triple-quoted template, joined by line breaks. *)
Fixpoint lines (l : list string) : string :=
  match l with
  | [] => ""
  | [s] => s
  | s :: r => s ++ nl ++ lines r
  end.

Definition star : string := "*".
Definition count_star : string := "COUNT(" ++ star ++ ")".

Section Compiler.

(** [compiler.process(clause)], the SQL text of a clause in the dialect of
    the statement compiler. *)
Variable process : Clause -> string.
(** ["%.2f" % x] and ["{}".format(x)] on a Python float. *)
Variable fmt_2f : Q -> string.
Variable fmt_float : Q -> string.

Definition compile_default (el : MedianFn) : string :=
  let col := process (clause0 el) in
  let percentile := percentile_value el in
  "percentile_cont(" ++ fmt_2f percentile ++ ") WITHIN GROUP (ORDER BY "
    ++ col ++ " ASC)".

Definition compile_bigquery (el : MedianFn) : string :=
  let col := process (clause0 el) in
  let percentile := process (NumLiteral (percentile_value el)) in
  "percentile_cont(" ++ col ++ " , " ++ percentile ++ ") OVER()".

Definition compile_clickhouse (el : MedianFn) : string :=
  let col := process (clause0 el) in
  let percentile := process (NumLiteral (percentile_value el)) in
  let quantile_str := "quantile(" ++ percentile ++ ")(" ++ col ++ ")" in
  let null_check :=
    match clause0 el with
    | ColumnClause _ t => if is_decimal t then "isNull" else "isNaN"
    | _ => "isNaN"
    end in
  "if(" ++ null_check ++ "(" ++ quantile_str ++ "), null, "
    ++ quantile_str ++ ")".

Definition compile_approx (el : MedianFn) : string :=
  let col := process (clause0 el) in
  let percentile := percentile_value el in
  "approx_percentile(" ++ col ++ ", " ++ fmt_2f percentile ++ ")".

Definition compile_mssql (el : MedianFn) : string :=
  let col := process (clause0 el) in
  let percentile := percentile_value el in
  "percentile_cont(" ++ fmt_2f percentile ++ ") WITHIN GROUP (ORDER BY "
    ++ col ++ " ASC) OVER()".

Definition compile_hive (el : MedianFn) : string :=
  let col := process (clause0 el) in
  let percentile := process (NumLiteral (percentile_value el)) in
  "percentile(cast(" ++ col ++ " as BIGINT), " ++ percentile ++ ")".

Definition compile_impala (el : MedianFn) : string :=
  let col := process (clause0 el) in
  let percentile := process (NumLiteral (percentile_value el)) in
  "if(" ++ percentile ++ " = .5, appx_median(" ++ col ++ "), null)".

Definition compile_mysql (el : MedianFn) : string :=
  let col := process (clause0 el) in
  let table := table_value el in
  let percentile := fmt_float (percentile_value el) in
  lines [
    "";
    "    (SELECT";
    "        " ++ col;
    "    FROM (";
    "        SELECT";
    "            " ++ col ++ ", ";
    "            ROW_NUMBER() OVER () AS row_num";
    "        FROM ";
    "            " ++ table ++ ",";
    "            (SELECT @counter := " ++ count_star ++ " FROM " ++ table
      ++ ") t_count ";
    "        ORDER BY " ++ col;
    "        ) temp";
    "    WHERE temp.row_num = ROUND(" ++ percentile ++ " * @counter)";
    "    )";
    "    " ].

(** The sub-select after [OFFSET] in the SQLite form. *)
Definition sqlite_offset_sql (col table percentile : string) : list string :=
  [ "            SELECT ROUND(" ++ count_star ++ " * " ++ percentile ++ " -1)";
    "            FROM " ++ table;
    "            WHERE " ++ col ++ " IS NOT NULL" ].

Definition compile_sqlite (el : MedianFn) : string :=
  let col := process (clause0 el) in
  let table := table_value el in
  let percentile := fmt_float (percentile_value el) in
  let head : list string := [
    "";
    "    (SELECT ";
    "        " ++ col;
    "    FROM " ++ table;
    "    WHERE " ++ col ++ " IS NOT NULL";
    "    ORDER BY " ++ col;
    "    LIMIT 1";
    "    OFFSET (" ] in
  let tail : list string := [
    "        )";
    "    )";
    "    " ] in
  lines (app head (app (sqlite_offset_sql col table percentile) tail)).

(** *** The [@compiles] registry of [MedianFn] *)

(** A dispatcher key: a dialect, or [None] for the "default" entry. *)
Definition Specs : Type := list (option Dialects * (MedianFn -> string)).

(** [@compiles(MedianFn, *dialects)]: one entry per dialect given, the
    "default" entry when none is; a later registration replaces an earlier
    one for the same key. *)
Definition compiles (dialects : list Dialects) (f : MedianFn -> string)
  (specs : Specs) : Specs :=
  match dialects with
  | [] => (None, f) :: specs
  | _ => (map (fun d => (Some d, f)) dialects ++ specs)%list
  end.

(** The registrations of median.py, in file order (stacked decorators apply
    from the innermost outwards). *)
Definition median_specs : Specs :=
  compiles [SQLite] compile_sqlite
  (compiles [MySQL] compile_mysql
  (compiles [Impala] compile_impala
  (compiles [Hive] compile_hive
  (compiles [MSSQL] compile_mssql
  (compiles [Athena] compile_approx
  (compiles [Trino] compile_approx
  (compiles [Presto] compile_approx
  (compiles [ClickHouse] compile_clickhouse
  (compiles [BigQuery] compile_bigquery
  (compiles [] compile_default [])))))))))).

Fixpoint specs_get (key : option Dialects) (specs : Specs)
  : option (MedianFn -> string) :=
  match specs with
  | [] => None
  | (k, f) :: rest => if decide (k = key) then Some f else specs_get key rest
  end.

(** Compiling a [MedianFn] element for the dialect of the statement
    compiler: the entry of that dialect, else the "default" entry. *)
Definition compile (dialect : Dialects) (el : MedianFn) : Outcome string :=
  match specs_get (Some dialect) median_specs with
  | Some f => Returns (f el)
  | None =>
      match specs_get None median_specs with
      | Some f => Returns (f el)
      | None => Raises (PyError "CompileError" "no default compilation")
      end
  end.

End Compiler.

(** *** Which row the SQLite form selects *)

(** SQLite's [ROUND]: to the nearest integer, halves away from zero. *)
Definition round_half_away (q : Q) : Z :=
  if Qle_bool 0 q then Qfloor (q + (1 # 2))
  else (- Qfloor (- q + (1 # 2)))%Z.

(** The value of the sub-select after [OFFSET], [ROUND(COUNT( * ) * p -1)],
    over [count] non-null rows. *)
Definition sqlite_offset (count : Z) (p : Q) : Z :=
  round_half_away (inject_Z count * p - 1).

(** The offset in the spec's words, [round(count*p)]. *)
Definition spec_offset (count : Z) (p : Q) : Z :=
  round_half_away (inject_Z count * p).

End Median.

(** ** profiler/processor/sampler/sampler_interface.py and
       profiler/processor/sampler/sqlalchemy/sampler.py *)

Module Sampler.
Import Registry.

Inductive ProfileSampleType : Type := PERCENTAGE | ROWS.

#[global] Instance ProfileSampleType_eq_dec : EqDecision ProfileSampleType.
Proof. solve_decision. Defined.

(** [ProfileSampleConfig]: the sample size (rows or percent) and its kind. *)
Record ProfileSampleConfig : Type := mkProfileSampleConfig {
  cfg_profile_sample : option Q;
  cfg_profile_sample_type : option ProfileSampleType
}.

Inductive PartitionIntervalType : Type :=
| COLUMN_VALUE | INTEGER_RANGE | TIME_UNIT | INGESTION_TIME.

Record PartitionProfilerConfig : Type := mkPartitionProfilerConfig {
  partitionColumnName : string;
  partitionIntervalType : PartitionIntervalType;
  partitionValues : list Value;
  partitionIntegerRangeStart : Z;
  partitionIntegerRangeEnd : Z;
  partitionInterval : Z;
  partitionIntervalUnit : string
}.

(** The filter expressions handed to [Query.filter]. *)
Inductive PartitionFilter : Type :=
| get_value_filter (col : string) (values : list Value)
| get_integer_range_filter (col : string) (range_start range_end : Z)
| build_query_filter_ge (col : string) (interval : Z) (unit_ : string).

(** SQLAlchemy queries and selectables, as the sampler chains them. *)
Inductive Query : Type :=
| query_entity (src : Selectable) (random_modulus : option Z)
    (* client.query(src) and
       client.query(src, ModuloFn(RandomNumFn(), m).label("random")) *)
| suffix_with_bernoulli (q : Query) (percent : Q) (dialect : Dialects)
| where_random_le (q : Query) (bound : option Q)
| filter_ (q : Query) (f : PartitionFilter)
| order_by (q : Query) (label : string)
| limit (q : Query) (n : option Q)
| from_statement (q : Query) (sql : string)
with Selectable : Type :=
| table_ref                                 (* self.table *)
| cte (q : Query) (cte_name : string)
| subquery (q : Query)
| aliased (s : Selectable).                 (* aliased(self.table, s) *)

(** What [random_sample] hands back: a table or alias, or a query. *)
Inductive Handle : Type :=
| HSelectable (s : Selectable)
| HQuery (q : Query).

Definition RANDOM_LABEL : string := "random".

Record SQASampler : Type := mkSQASampler {
  tablename : string;                       (* self.table.__tablename__ *)
  profile_sample : option Q;
  profile_sample_type : option ProfileSampleType;
  _profile_sample_query : option string;
  sample_limit : nat;
  _partition_details : option PartitionProfilerConfig
}.

(** [SamplerInterface.__init__] *)
Definition init (table : string) (profile_sample_config : option ProfileSampleConfig)
  (partition_details : option PartitionProfilerConfig)
  (profile_sample_query : option string) : SQASampler :=
  mkSQASampler table
    (match profile_sample_config with
     | Some c => cfg_profile_sample c
     | None => None
     end)
    (match profile_sample_config with
     | Some c => cfg_profile_sample_type c
     | None => None
     end)
    profile_sample_query
    100
    partition_details.

(** Truthiness of an optional number. *)
Definition truthy_num (o : option Q) : bool :=
  match o with
  | Some q => negb (Qeq_bool q 0)
  | None => false
  end.

(** The database behind the session. *)
Record Engine : Type := mkEngine {
  engine_dialect : Dialects;
  table_columns : list string;
  table_rows : list Row;
  rand : nat -> Z;                  (* the draw of RandomNumFn() for a row *)
  bernoulli : Q -> nat -> bool;     (* SAMPLE BERNOULLI (p) keeps the row *)
  window_start : Z -> string -> Z;  (* the instant [interval] units ago *)
  execute : string -> list string * list (list Value)
                                    (* columns and rows of a literal query *)
}.

(** [self.client.query(self.table).count()] *)
Definition table_query_count (eng : Engine) : Z :=
  Z.of_nat (length (table_rows eng)).

(** The body of [get_sample_query], reading from [src] (the source reads
    [self.table]). *)
Definition sample_query_from (eng : Engine) (self : SQASampler)
  (src : Selectable) : Selectable :=
  if decide (profile_sample_type self = Some PERCENTAGE) then
    let rnd :=
      cte (suffix_with_bernoulli
             (query_entity src (Some 100%Z))
             (if truthy_num (profile_sample self)
              then default 0%Q (profile_sample self) else 100%Q)
             Snowflake)
          (tablename self ++ "_rnd") in
    let session_query := query_entity rnd None in
    cte (where_random_le session_query (profile_sample self))
        (tablename self ++ "_sample")
  else
    cte (limit
           (order_by
              (query_entity src (Some (table_query_count eng)))
              RANDOM_LABEL)
           (profile_sample self))
        (tablename self ++ "_rnd").

(** The filter of a partition configuration, as [_partitioned_table] picks
    it. *)
Definition partition_filter (pd : PartitionProfilerConfig) : PartitionFilter :=
  match partitionIntervalType pd with
  | COLUMN_VALUE =>
      get_value_filter (partitionColumnName pd) (partitionValues pd)
  | INTEGER_RANGE =>
      get_integer_range_filter (partitionColumnName pd)
        (partitionIntegerRangeStart pd) (partitionIntegerRangeEnd pd)
  | _ =>
      build_query_filter_ge (partitionColumnName pd)
        (partitionInterval pd) (partitionIntervalUnit pd)
  end.

(** [_partitioned_table] *)
Definition _partitioned_table (pd : PartitionProfilerConfig) : Selectable :=
  aliased (subquery (filter_ (query_entity table_ref None)
                             (partition_filter pd))).

(** Modelled from the spec: the decorator
    [@partition_filter_handler(build_sample=True)] comes from
    profiler/processor/handle_partition.py, which is not part of the profiled
    files.  "Partition mode: before random sampling, restrict to rows matching
    a column-value set, an integer range, or a time window [...] this filter
    composes with, and is applied prior to, any row/percentage sampling."
    Without partition details the decorated function runs unchanged. *)
Definition get_sample_query (eng : Engine) (self : SQASampler) : Selectable :=
  match _partition_details self with
  | Some pd =>
      sample_query_from eng self
        (subquery (filter_ (query_entity table_ref None)
                           (partition_filter pd)))
  | None => sample_query_from eng self table_ref
  end.

(** [_rdn_sample_from_user_query] *)
Definition _rdn_sample_from_user_query (sql : string) : Query :=
  from_statement (query_entity table_ref None) sql.

(** [random_sample] *)
Definition random_sample (eng : Engine) (self : SQASampler) : Handle :=
  if truthy_str (_profile_sample_query self) then
    HQuery (_rdn_sample_from_user_query
              (default "" (_profile_sample_query self)))
  else if negb (truthy_num (profile_sample self)) then
    match _partition_details self with
    | Some pd => HSelectable (_partitioned_table pd)
    | None => HSelectable table_ref
    end
  else
    let sampled := get_sample_query eng self in
    HSelectable (aliased sampled).

(** *** Rows of a query *)

(** A row of a selectable, with its "random" label when the selectable has
    that column. *)
Definition LRow : Type := Row * option Z.

Definition row_get (r : Row) (c : string) : option Value :=
  match List.find (fun kv => String.eqb kv.1 c) r with
  | Some kv => Some kv.2
  | None => None
  end.

Definition value_eqb (a b : Value) : bool :=
  match a, b with
  | VInt x, VInt y => Z.eqb x y
  | VStr x, VStr y => String.eqb x y
  | VReal x, VReal y => Qeq_bool x y
  | _, _ => false
  end.

(** Modelled from the spec: [get_value_filter], [get_integer_range_filter],
    [build_query_filter] and [dispatch_to_date_or_datetime] come from
    utils/sqa_utils.py, which is not part of the profiled files.  A partition
    keeps the "rows matching a column-value set, an integer range, or a time
    window relative to a unit/interval"; the time window is the comparison
    "ge" of [_partitioned_table] against the instant the engine computes. *)
Definition matches (eng : Engine) (f : PartitionFilter) (r : Row) : bool :=
  match f with
  | get_value_filter c values =>
      match row_get r c with
      | Some v => existsb (value_eqb v) values
      | None => false
      end
  | get_integer_range_filter c lo hi =>
      match row_get r c with
      | Some (VInt z) => Z.leb lo z && Z.leb z hi
      | _ => false
      end
  | build_query_filter_ge c interval unit_ =>
      match row_get r c with
      | Some (VInt z) => Z.leb (window_start eng interval unit_) z
      | _ => false
      end
  end.

Definition label_key (lr : LRow) : Z := default 0%Z lr.2.

Definition label_le (a b : LRow) : Prop := (label_key a <= label_key b)%Z.

#[global] Instance label_le_dec a b : Decision (label_le a b).
Proof. unfold label_le. apply _. Defined.

(** [int(n)], as a LIMIT clause coerces its argument. *)
Definition asint (q : Q) : Z :=
  if Qle_bool 0 q then Qfloor q else Qceiling q.

Definition label_rows (eng : Engine) (m : Z) (rows : list LRow) : list LRow :=
  imap (fun i lr => (lr.1, Some (rand eng i mod m)%Z)) rows.

Definition keep_indexed {A} (keep : nat -> bool) (l : list A) : list A :=
  omap (fun x => x) (imap (fun i x => if keep i then Some x else None) l).

Definition random_le (bound : option Q) (lr : LRow) : bool :=
  match lr.2, bound with
  | Some z, Some p => Qle_bool (inject_Z z) p
  | _, _ => false
  end.

(** Modelled from the spec: the rows a query yields are the engine's doing.
    "assign each row a modulo(random(), <computed total row count>) label,
    order by it, and take the first N rows"; "assign each row
    modulo(random(), 100) and keep rows where the label <= percentage"; a
    literal query gives "its result verbatim". *)
Fixpoint query_rows (eng : Engine) (q : Query) : list LRow :=
  match q with
  | query_entity src None => selectable_rows eng src
  | query_entity src (Some m) => label_rows eng m (selectable_rows eng src)
  | suffix_with_bernoulli q p d =>
      if decide (engine_dialect eng = d)
      then keep_indexed (bernoulli eng p) (query_rows eng q)
      else query_rows eng q
  | where_random_le q bound => List.filter (random_le bound) (query_rows eng q)
  | filter_ q f => List.filter (fun lr => matches eng f lr.1) (query_rows eng q)
  | order_by q _ => merge_sort label_le (query_rows eng q)
  | limit q None => query_rows eng q
  | limit q (Some n) => firstn (Z.to_nat (asint n)) (query_rows eng q)
  | from_statement _ sql =>
      map (fun vals => (zip (execute eng sql).1 vals, None))
          (execute eng sql).2
  end
with selectable_rows (eng : Engine) (s : Selectable) : list LRow :=
  match s with
  | table_ref => map (fun r => (r, None)) (table_rows eng)
  | cte q _ => query_rows eng q
  | subquery q => query_rows eng q
  | aliased s => map (fun lr => (lr.1, None)) (selectable_rows eng s)
  end.

(** The table rows a handle stands for. *)
Definition handle_rows (eng : Engine) (h : Handle) : list Row :=
  match h with
  | HSelectable s => map fst (selectable_rows eng s)
  | HQuery q => map fst (query_rows eng q)
  end.

(** *** Preview rows *)

Record TableData : Type := mkTableData {
  columns : list string;
  rows : list (list Value)
}.

(** [_fetch_sample_data_from_user_query] *)
Definition _fetch_sample_data_from_user_query (eng : Engine) (sql : string)
  : TableData :=
  let rnd := execute eng sql in
  mkTableData rnd.1 (firstn 100 rnd.2).

(** [fetch_sample_data] *)
Definition fetch_sample_data (eng : Engine) (self : SQASampler) : TableData :=
  if truthy_str (_profile_sample_query self) then
    _fetch_sample_data_from_user_query eng
      (default "" (_profile_sample_query self))
  else
    let rnd := get_sample_query eng self in
    let sqa_columns :=
      List.filter (fun c => negb (String.eqb c RANDOM_LABEL))
                  (table_columns eng) in
    let sqa_sample :=
      firstn (sample_limit self) (selectable_rows eng rnd) in
    mkTableData sqa_columns
      (map (fun lr => omap (row_get lr.1) sqa_columns) sqa_sample).

End Sampler.

(** ** profiler/interface/sqlalchemy/profiler_interface.py *)

Module ProfilerInterface.
Import Registry Metrics.

(** The metric taxonomy ([MetricTypes], whose [value] is the tag itself). *)
Inductive MetricTypes : Type :=
| Table | Static | Query | Window | System | Composed | Hybrid.

#[global] Instance MetricTypes_eq_dec : EqDecision MetricTypes.
Proof. solve_decision. Defined.

(** [OVERFLOW_ERROR_CODES.get(dialect_name)] *)
Definition OVERFLOW_ERROR_CODES (dialect_name : string) : option (list Z) :=
  if String.eqb dialect_name "snowflake"
  then Some [100046%Z; 100058%Z]
  else None.

Inductive LogLevel : Type := DEBUG | INFO | WARNING | ERROR.

(** The mutable objects a worker touches: the shared processor status, the
    thread's session (its rollbacks are counted) and the logger. *)
Record World : Type := mkWorld {
  processor_status : StatusApi.Status;
  session_rollbacks : nat;
  log : list (LogLevel * string)
}.

(** State and exceptions. *)
Definition M (A : Type) : Type := World -> Outcome A * World.

Definition ret {A} (a : A) : M A := fun w => (Returns a, w).

Definition raise {A} (e : Exc) : M A := fun w => (Raises e, w).

Definition bind {A B} (m : M A) (k : A -> M B) : M B :=
  fun w =>
    match m w with
    | (Returns a, w') => k a w'
    | (Raises e, w') => (Raises e, w')
    end.

(** [try: m except Exception as exc: h exc] *)
Definition try_except {A} (m : M A) (h : Exc -> M A) : M A :=
  fun w =>
    match m w with
    | (Returns a, w') => (Returns a, w')
    | (Raises e, w') => h e w'
    end.

Definition lift {A} (o : Outcome A) : M A := fun w => (o, w).

Notation "x <- m ;; k" := (bind m (fun x => k))
  (at level 100, m at next level, right associativity).
Notation "m ;;; k" := (bind m (fun _ => k))
  (at level 100, right associativity).

Definition logger (lvl : LogLevel) (msg : string) : M unit :=
  fun w => (Returns tt,
            mkWorld (processor_status w) (session_rollbacks w)
                    (log w ++ [(lvl, msg)])).

(** [session.rollback()] *)
Definition rollback : M unit :=
  fun w => (Returns tt,
            mkWorld (processor_status w) (S (session_rollbacks w)) (log w)).

Definition update_status (f : StatusApi.Status -> StatusApi.Status) : M unit :=
  fun w => (Returns tt,
            mkWorld (f (processor_status w)) (session_rollbacks w) (log w)).

(** [handle_query_exception] *)
Definition handle_query_exception {A} (msg : string) (exc : Exc) : M A :=
  logger DEBUG (format_exc exc) ;;;
  logger WARNING msg ;;;
  rollback ;;;
  raise (RuntimeError exc).

(** What the database and the metric classes outside the profiled files
    answer to a worker. *)
Record QueryRunner : Type := mkQueryRunner {
  runner_tablename : string;       (* runner.table.__tablename__ *)
  session_dialect : string;        (* session.bind.dialect.name *)
  select_first_from_sample :
    list (option (string * SqlExpr)) -> Outcome (option Row);
  table_metric_construct : string -> list Metric -> Outcome (option Row);
  metric_query : Metric -> Column -> Sampler.Handle -> Outcome (option string);
    (* metric(column).query(sample=sample, session=session) *)
  metric_type_is_dict : Metric -> bool;
    (* col_metric.metric_type == dict *)
  select_all_from_query : string -> Outcome (list Row);
  select_first_from_query : string -> Outcome (option Row);
  metric_sql : Metric -> Outcome Value
    (* metric().sql(session, conn_config=...) *)
}.

(** A unit of work [(metrics, metric_type, column, table)]: table and system
    units carry no column, query and system units carry one metric. *)
Inductive WorkUnit : Type :=
| TableUnit (metrics : list Metric)
| StaticUnit (metrics : list Metric) (column : Column)
| QueryUnit (metric : Metric) (column : Column)
| WindowUnit (metrics : list Metric) (column : Column)
| SystemUnit (metric : Metric)
| OtherUnit (hybrid : bool) (metrics : list Metric) (column : option Column).

Definition unit_type (u : WorkUnit) : MetricTypes :=
  match u with
  | TableUnit _ => Table
  | StaticUnit _ _ => Static
  | QueryUnit _ _ => Query
  | WindowUnit _ _ => Window
  | SystemUnit _ => System
  | OtherUnit h _ _ => if h then Hybrid else Composed
  end.

Definition unit_column (u : WorkUnit) : option Column :=
  match u with
  | StaticUnit _ c | QueryUnit _ c | WindowUnit _ c => Some c
  | OtherUnit _ _ c => c
  | TableUnit _ | SystemUnit _ => None
  end.

(** Python truthiness of a result row. *)
Definition truthy_row (o : option Row) : bool :=
  match o with
  | Some (_ :: _) => true
  | _ => false
  end.

(** [dict(row)] on what [first()] returned; [dict(None)] is a [TypeError]. *)
Definition dict_of_first (o : option Row) : Outcome Value :=
  match o with
  | Some row => Returns (VDict (dict row))
  | None => Raises (PyError "TypeError" "'NoneType' object is not iterable")
  end.

Definition profile_error_msg (tablename : string) (col : option Column)
  (exc : Exc) : string :=
  match col with
  | Some c =>
      "Error trying to compute profile for " ++ tablename ++ "."
        ++ col_name c ++ ": " ++ exc_str exc
  | None =>
      "Error trying to compute profile for " ++ tablename ++ ": "
        ++ exc_str exc
  end.

(** [metric not in {Sum, StdDev, Mean}] *)
Definition not_in_Sum_StdDev_Mean (m : Metric) : bool :=
  match m with
  | Sum | StdDev | Mean => false
  | _ => true
  end.

(** The select list of the static statement. *)
Definition static_statement (metrics : list Metric) (column : Column)
  : list (option (string * SqlExpr)) :=
  map (fun metric => fn metric column)
      (List.filter (fun metric => negb (is_window_metric metric)) metrics).

(** The select list of the statement without sum, mean and stddev. *)
Definition static_statement_wo_sum (metrics : list Metric) (column : Column)
  : list (option (string * SqlExpr)) :=
  map (fun metric => fn metric column)
      (List.filter (fun metric => negb (is_window_metric metric)
                                  && not_in_Sum_StdDev_Mean metric) metrics).

(** [_compute_static_metrics_wo_sum] *)
Definition _compute_static_metrics_wo_sum (runner : QueryRunner)
  (metrics : list Metric) (column : Column) : M Value :=
  try_except
    (row <- lift (select_first_from_sample runner
                    (static_statement_wo_sum metrics column)) ;;
     lift (dict_of_first row))
    (fun exc =>
       handle_query_exception
         (profile_error_msg (runner_tablename runner) (Some column) exc) exc).

(** [exc.orig and exc.orig.errno in OVERFLOW_ERROR_CODES.get(dialect)], for a
    caught [ProgrammingError].  The attribute is read before the codes are
    looked up: a driver error without [errno] is an [AttributeError], and
    membership in [None] is a [TypeError]. *)
Definition is_overflow (runner : QueryRunner) (orig : option DBAPIError)
  : Outcome bool :=
  match orig with
  | None => Returns false
  | Some dbapi =>
      match dbapi_errno dbapi with
      | None =>
          Raises (PyError "AttributeError"
                          ("'" ++ dbapi_class dbapi
                               ++ "' object has no attribute 'errno'"))
      | Some errno =>
          match OVERFLOW_ERROR_CODES (session_dialect runner) with
          | Some codes => Returns (existsb (Z.eqb errno) codes)
          | None =>
              Raises (PyError "TypeError"
                              "argument of type 'NoneType' is not iterable")
          end
      end
  end.

(** [_get_metrics] for [MetricTypes.Table] *)
Definition get_metrics_table (runner : QueryRunner) (metrics : list Metric)
  : M Value :=
  try_except
    (row <- lift (table_metric_construct runner (session_dialect runner)
                                         metrics) ;;
     if truthy_row row then lift (dict_of_first row) else ret VNone)
    (fun exc =>
       logger DEBUG (format_exc exc) ;;;
       logger WARNING (profile_error_msg (runner_tablename runner) None exc) ;;;
       rollback ;;;
       raise (RuntimeError exc)).

(** [_get_metrics] for [MetricTypes.Static] *)
Definition get_metrics_static (runner : QueryRunner) (metrics : list Metric)
  (column : Column) : M Value :=
  fun w =>
    match (row <- lift (select_first_from_sample runner
                          (static_statement metrics column)) ;;
           lift (dict_of_first row)) w with
    | (Returns v, w') => (Returns v, w')
    | (Raises (ProgrammingError orig msg), w') =>
        (* except ProgrammingError as exc *)
        (overflow <- lift (is_overflow runner orig) ;;
         if overflow : bool then
           logger INFO ("Computing metrics without sum for "
                          ++ runner_tablename runner ++ "."
                          ++ col_name column) ;;;
           _compute_static_metrics_wo_sum runner metrics column
         else ret VNone) w'
    | (Raises exc, w') =>
        (* except Exception as exc *)
        handle_query_exception
          (profile_error_msg (runner_tablename runner) (Some column) exc)
          exc w'
    end.

(** [{k: [result[k] for result in results] for k in dict(results[0])}] *)
Definition column_of_results (results : list Row) (k : string)
  : Outcome Value :=
  match mapM (fun result => dict result !! k) results with
  | Some vals => Returns (VList vals)
  | None => Raises (PyError "KeyError" k)
  end.

Fixpoint reshape_results (results : list Row) (keys : list string)
  : Outcome (gmap string Value) :=
  match keys with
  | [] => Returns ∅
  | k :: rest =>
      match column_of_results results k with
      | Raises e => Raises e
      | Returns v =>
          match reshape_results results rest with
          | Raises e => Raises e
          | Returns d => Returns (<[k := v]> d)
          end
      end
  end.

(** [_get_metrics] for [MetricTypes.Query] *)
Definition get_metrics_query (runner : QueryRunner) (metric : Metric)
  (column : Column) (sample : Sampler.Handle) : M Value :=
  try_except
    (metric_query_ <- lift (metric_query runner metric column sample) ;;
     match metric_query_ with
     | None => ret VNone
     | Some q =>
         if metric_type_is_dict runner metric then
           results <- lift (select_all_from_query runner q) ;;
           match results with
           | [] => raise (PyError "IndexError" "list index out of range")
           | first :: _ =>
               data <- lift (reshape_results results
                               (map fst (map_to_list (dict first)))) ;;
               ret (VDict {[ name metric := VDict data ]})
           end
         else
           row <- lift (select_first_from_query runner q) ;;
           lift (dict_of_first row)
     end)
    (fun exc =>
       handle_query_exception
         (profile_error_msg (runner_tablename runner) (Some column) exc) exc).

(** [_get_metrics] for [MetricTypes.Window] *)
Definition get_metrics_window (runner : QueryRunner) (metrics : list Metric)
  (column : Column) : M Value :=
  match metrics with
  | [] => ret VNone
  | _ =>
      fun w =>
        match select_first_from_sample runner
                (map (fun metric => fn metric column) metrics) with
        | Returns row =>
            ((if truthy_row row then lift (dict_of_first row) else ret VNone)
               : M Value) w
        | Raises (ProgrammingError orig msg) =>
            (overflow <- lift (is_overflow runner orig) ;;
             if overflow : bool then
               logger INFO ("Skipping window metrics for "
                              ++ runner_tablename runner ++ "."
                              ++ col_name column ++ " due to overflow") ;;;
               ret VNone
             else
               (* [if row:] reads a name that was never bound *)
               raise (PyError "UnboundLocalError"
                        "local variable 'row' referenced before assignment"))
              w
        | Raises exc =>
            handle_query_exception
              (profile_error_msg (runner_tablename runner) (Some column) exc)
              exc w
        end
  end.

(** [_get_metrics] for [MetricTypes.System] *)
Definition get_metrics_system (runner : QueryRunner) (metric : Metric)
  : M Value :=
  try_except
    (lift (metric_sql runner metric))
    (fun exc =>
       handle_query_exception
         (profile_error_msg (runner_tablename runner) None exc) exc).

(** The generic [_get_metrics]: nothing is registered for the type. *)
Definition get_metrics_default : M Value :=
  logger WARNING "Could not get metric. No function registered." ;;;
  ret VNone.

(** [self._get_metrics(metric_type.value, metrics, runner=..., session=...,
    column=..., sample=...)], dispatched on the value of the metric type. *)
Definition _get_metrics (runner : QueryRunner) (u : WorkUnit)
  (sample : Sampler.Handle) : M Value :=
  match u with
  | TableUnit metrics => get_metrics_table runner metrics
  | StaticUnit metrics col => get_metrics_static runner metrics col
  | QueryUnit metric col => get_metrics_query runner metric col sample
  | WindowUnit metrics col => get_metrics_window runner metrics col
  | SystemUnit metric => get_metrics_system runner metric
  | OtherUnit _ _ _ => get_metrics_default
  end.

(** What one profiling run shares between its units of work. *)
Record Env : Type := mkEnv {
  tablename : string;               (* table.__tablename__ *)
  thread_name : string;             (* threading.current_thread() *)
  thread_count : nat;               (* self._thread_count *)
  runner : QueryRunner;             (* the thread's runner and session *)
  prepare_sample : Outcome Sampler.Handle;
    (* session tag, catalog, the thread's sampler and its random_sample():
       the sample, or what was raised before the try statement *)
  now_ms : nat -> Z
    (* int(datetime.now(tz=timezone.utc).timestamp() * 1000) when the
       result of the i-th future is merged *)
}.

(** A sampler of the sampler module, as the thread's sample source. *)
Definition sample_of (eng : Sampler.Engine) (s : Sampler.SQASampler)
  : Outcome Sampler.Handle :=
  Returns (Sampler.random_sample eng s).

(** The text of the failure recorded for a unit. *)
Definition failure_text (env : Env) (u : WorkUnit) (exc : Exc) : string :=
  match unit_column u with
  | Some c => column_str c
  | None => runner_tablename (runner env)
  end ++ " metric_type.value: " ++ exc_str exc.

(** The identifier a unit is scanned under. *)
Definition scan_id (env : Env) (u : WorkUnit) : string :=
  match unit_column u with
  | Some c => tablename env ++ "." ++ col_name c
  | None => tablename env
  end.

(** Lines 414 to 435 of [compute_metrics_in_thread]: the guarded metric
    computation, the status bookkeeping and the returned triple. *)
Definition compute_with_sample (env : Env) (u : WorkUnit)
  (sample : Sampler.Handle) : M (Value * option string * MetricTypes) :=
  row <- try_except
           (_get_metrics (runner env) u sample)
           (fun exc =>
              let error := failure_text env u exc in
              logger ERROR error ;;;
              update_status
                (fun st => StatusApi.failed_profiler st error
                             (Some (format_exc exc))) ;;;
              ret VNone) ;;
  match unit_column u with
  | Some c =>
      update_status
        (fun st => StatusApi.scanned st (tablename env ++ "." ++ col_name c)) ;;;
      ret (row, Some (col_name c), unit_type u)
  | None =>
      update_status (fun st => StatusApi.scanned st (tablename env)) ;;;
      ret (row, None, unit_type u)
  end.

(** [compute_metrics_in_thread] *)
Definition compute_metrics_in_thread (env : Env) (u : WorkUnit)
  : M (Value * option string * MetricTypes) :=
  logger DEBUG ("Running profiler for " ++ tablename env ++ " on thread "
                  ++ thread_name env) ;;;
  sample <- lift (prepare_sample env) ;;
  compute_with_sample env u sample.

(** [profile_results]; the key "system" is absent until a system result
    arrives. *)
Record ProfileResults : Type := mkProfileResults {
  table : gmap string Value;
  columns : gmap (option string) (gmap string Value);
  system : option Value
}.

Definition empty_results : ProfileResults := mkProfileResults ∅ ∅ None.

(** A future of the pool, as the collecting loop finds it. *)
Inductive Future : Type :=
| Cancelled
| Completed (result : Value * option string * MetricTypes)
| TimedOut
| Failed (e : Exc).

Definition is_dict (v : Value) : bool :=
  match v with VDict _ => true | _ => false end.

Definition as_dict (v : Value) : gmap string Value :=
  match v with VDict d => d | _ => ∅ end.

Definition opt_str (o : option string) : Value :=
  match o with Some s => VStr s | None => VNone end.

(** [{"name": column, "timestamp": ts, **profile}] *)
Definition annotated (column : option string) (ts : Z)
  (profile : gmap string Value) : gmap string Value :=
  dict_update (<["timestamp" := VInt ts]> {["name" := opt_str column]})
              profile.

(** The body of the loop over the futures, for a completed future. *)
Definition merge_result (ts : Z) (res : ProfileResults)
  (result : Value * option string * MetricTypes) : ProfileResults :=
  let '(profile, col, metric_type) := result in
  let profile :=
    if negb (bool_decide (metric_type = System)) && negb (is_dict profile)
    then VDict ∅ else profile in
  if bool_decide (metric_type = Table) then
    mkProfileResults (dict_update (table res) (as_dict profile))
                     (columns res) (system res)
  else if bool_decide (metric_type = System) then
    mkProfileResults (table res) (columns res) (Some profile)
  else
    mkProfileResults
      (table res)
      (<[col :=
           dict_update (default ∅ (columns res !! col))
                       (annotated col ts (as_dict profile))]>
         (columns res))
      (system res).

(** The loop [for future in futures]. *)
Fixpoint collect (env : Env) (i : nat) (futures : list Future)
  (res : ProfileResults) : M ProfileResults :=
  match futures with
  | [] => ret res
  | Cancelled :: rest => collect env (S i) rest res
  | Completed result :: rest =>
      collect env (S i) rest (merge_result (now_ms env i) res result)
  | TimedOut :: _ =>
      logger DEBUG (format_exc (PyError "TimeoutError" "")) ;;;
      logger ERROR "Operation was cancelled due to TimeoutError - " ;;;
      raise (PyError "TimeoutError" "")
  | Failed e :: _ => raise e
  end.

(** The pool, on the schedule that runs the submitted units one after the
    other: a unit that raises leaves a failed future. *)
Fixpoint submit_all (env : Env) (metric_funcs : list WorkUnit)
  : M (list Future) :=
  match metric_funcs with
  | [] => ret []
  | u :: rest =>
      f <- try_except
             (r <- compute_metrics_in_thread env u ;; ret (Completed r))
             (fun exc => ret (Failed exc)) ;;
      fs <- submit_all env rest ;;
      ret (f :: fs)
  end.

(** [get_all_metrics] *)
Definition get_all_metrics (env : Env) (metric_funcs : list WorkUnit)
  : M ProfileResults :=
  logger DEBUG ("Computing metrics with " ++ pretty (thread_count env)
                  ++ " threads.") ;;;
  futures <- submit_all env metric_funcs ;;
  collect env 0 futures empty_results.

(** What a metric computation leaves behind: the processor status is
    untouched, and the session is rolled back exactly when the computation
    ends in a [RuntimeError]. *)
Definition effects_of (w : World) (o : Outcome Value) (w' : World) : Prop :=
  processor_status w' = processor_status w
  /\ match o with
     | Raises (RuntimeError _) => session_rollbacks w' = S (session_rollbacks w)
     | _ => session_rollbacks w' = session_rollbacks w
     end.

(** The world after lines 423 to 433: the failure, if any, then the scan. *)
Definition after_unit (env : Env) (u : WorkUnit) (w1 : World)
  (failure : option Exc) : World :=
  mkWorld
    (StatusApi.scanned
       (match failure with
        | Some exc =>
            StatusApi.failed_profiler (processor_status w1)
              (failure_text env u exc) (Some (format_exc exc))
        | None => processor_status w1
        end)
       (scan_id env u))
    (session_rollbacks w1)
    (match failure with
     | Some exc => (log w1 ++ [(ERROR, failure_text env u exc)])%list
     | None => log w1
     end).

Definition initial_world (ent : option string) : World :=
  mkWorld (StatusApi.empty_status ent) 0 [].

End ProfilerInterface.

(** ** Concrete columns, tables and runners used in the examples *)

Module Scenarios.
Import Registry Metrics.

Definition text_type : SqlType := mkSqlType "VARCHAR" Concatenable false.
Definition int_type : SqlType := mkSqlType "INTEGER" Quantifiable false.

Definition name_col : Column := mkColumn "name" text_type (Some "users").
Definition age_col : Column := mkColumn "age" int_type (Some "users").

(** The text column with the values "a", "bb" and "ccc". *)
Definition abc_cells : list (option Cell) :=
  [Some (CText "a"); Some (CText "bb"); Some (CText "ccc")].

Definition abc_chunk : Series := TextSeries [Some "a"; Some "bb"; Some "ccc"].

(** A statement compiler that prints a column by its name, and the three
    percentiles the profiler asks for. *)
Definition process_plain (c : Median.Clause) : string :=
  match c with
  | Median.ColumnClause nm _ => nm
  | Median.TextLiteral v => "'" ++ v ++ "'"
  | Median.NumLiteral _ => ":param_1"
  end.

Definition fmt_2f_quartiles (q : Q) : string :=
  if Qeq_bool q (1 # 4) then "0.25"
  else if Qeq_bool q (1 # 2) then "0.50"
  else if Qeq_bool q (3 # 4) then "0.75" else "?".

Definition fmt_float_quartiles (q : Q) : string :=
  if Qeq_bool q (1 # 4) then "0.25"
  else if Qeq_bool q (1 # 2) then "0.5"
  else if Qeq_bool q (3 # 4) then "0.75" else "?".

Definition median_of_age : Median.MedianFn :=
  Median.mkMedianFn (Median.ColumnClause "age" int_type) "users" (1 # 2).

(** A three-row table and its engine. *)
Definition users_rows : list Row :=
  [ [("id", VInt 1); ("age", VInt 31)];
    [("id", VInt 2); ("age", VInt 47)];
    [("id", VInt 3); ("age", VInt 19)] ].

Definition users_engine : Sampler.Engine :=
  Sampler.mkEngine SQLite ["id"; "age"] users_rows
    (fun i => Z.of_nat (7 * i + 2))
    (fun _ _ => true)
    (fun _ _ => 0%Z)
    (fun _ => (["id"; "age"], [[VInt 9; VInt 99]])).

Definition rows_config (n : Q) : Sampler.ProfileSampleConfig :=
  Sampler.mkProfileSampleConfig (Some n) (Some Sampler.ROWS).

Definition percent_config (p : Q) : Sampler.ProfileSampleConfig :=
  Sampler.mkProfileSampleConfig (Some p) (Some Sampler.PERCENTAGE).

Definition adults : Sampler.PartitionProfilerConfig :=
  Sampler.mkPartitionProfilerConfig "age" Sampler.INTEGER_RANGE [] 30 60 0 "".

Definition zero_rows_sampler : Sampler.SQASampler :=
  Sampler.init "users" (Some (rows_config 0)) None None.

Definition two_rows_sampler : Sampler.SQASampler :=
  Sampler.init "users" (Some (rows_config 2)) None None.

Definition adults_sampler : Sampler.SQASampler :=
  Sampler.init "users" (Some (rows_config 1)) (Some adults) None.

Definition literal_query : string := "SELECT id, age FROM users WHERE age > 90".

Definition query_sampler : Sampler.SQASampler :=
  Sampler.init "users" (Some (rows_config 2)) (Some adults)
               (Some literal_query).

(** A Snowflake runner on which sum, mean and stddev overflow. *)
Definition overflows (o : option (string * SqlExpr)) : bool :=
  match o with
  | Some (_, (func_avg _ | SumFn _ | StdDevFn _)) => true
  | _ => false
  end.

Definition row_of_statement (stmt : list (option (string * SqlExpr))) : Row :=
  omap (fun o => match o with
                 | Some (label, _) => Some (label, VInt 1)
                 | None => None
                 end) stmt.

Definition runner_with
  (first : list (option (string * SqlExpr)) -> Outcome (option Row))
  (dialect : string) : ProfilerInterface.QueryRunner :=
  ProfilerInterface.mkQueryRunner "users" dialect first
    (fun _ _ => Returns (Some [("rowCount", VInt 3)]))
    (fun _ _ _ => Returns None)
    (fun _ => false)
    (fun _ => Returns [])
    (fun _ => Returns None)
    (fun _ => Returns VNone).

(** The error of a driver that numbers its errors. *)
Definition driver_error (errno : Z) : DBAPIError :=
  mkDBAPIError "ProgrammingError" (Some errno).

Definition overflow_runner : ProfilerInterface.QueryRunner :=
  runner_with
    (fun stmt =>
       if existsb overflows stmt
       then Raises (ProgrammingError (Some (driver_error 100046))
                      "Numeric value is out of range")
       else Returns (Some (row_of_statement stmt)))
    "snowflake".

(** A runner whose connection is lost. *)
Definition broken_runner : ProfilerInterface.QueryRunner :=
  runner_with
    (fun _ => Raises (PyError "OperationalError" "connection lost"))
    "snowflake".

(** A Snowflake runner that rejects the statement with a compilation error. *)
Definition rejecting_runner : ProfilerInterface.QueryRunner :=
  runner_with
    (fun _ => Raises (ProgrammingError (Some (driver_error 1003))
                        "SQL compilation error"))
    "snowflake".

(** A MySQL runner that rejects the statement; its driver numbers errors. *)
Definition mysql_runner : ProfilerInterface.QueryRunner :=
  runner_with
    (fun _ => Raises (ProgrammingError (Some (driver_error 1064))
                        "syntax error"))
    "mysql".

(** A PostgreSQL runner that rejects the statement; its driver's errors have
    no [errno]. *)
Definition postgres_runner : ProfilerInterface.QueryRunner :=
  runner_with
    (fun _ => Raises (ProgrammingError
                        (Some (mkDBAPIError "SyntaxError" None))
                        "syntax error"))
    "postgresql".

(** A runner that answers every statement. *)
Definition healthy_runner : ProfilerInterface.QueryRunner :=
  runner_with (fun stmt => Returns (Some (row_of_statement stmt))) "sqlite".

Definition env_of (r : ProfilerInterface.QueryRunner) : ProfilerInterface.Env :=
  ProfilerInterface.mkEnv "users" "worker-0" 5 r
    (Returns (Sampler.HSelectable Sampler.table_ref))
    (fun i => (1700000000000 + Z.of_nat i)%Z).

(** Results gathered so far, and three more futures: a table result, a
    cancelled future and a second result for the column "age". *)
Definition age_profile : gmap string Value :=
  <["min" := VInt 19]> (<["timestamp" := VInt 1]> {["name" := VStr "age"]}).

Definition earlier_results : ProfilerInterface.ProfileResults :=
  ProfilerInterface.mkProfileResults
    {["rowCount" := VInt 3]} {[Some "age" := age_profile]} (Some VNone).

Definition later_futures : list ProfilerInterface.Future :=
  [ ProfilerInterface.Completed
      (VDict {["columnCount" := VInt 2]}, None, ProfilerInterface.Table);
    ProfilerInterface.Cancelled;
    ProfilerInterface.Completed
      (VDict {["max" := VInt 47]}, Some "age", ProfilerInterface.Static) ].

Definition later_results : ProfilerInterface.ProfileResults :=
  ProfilerInterface.merge_result
    (ProfilerInterface.now_ms (env_of healthy_runner) 2)
    (ProfilerInterface.merge_result
       (ProfilerInterface.now_ms (env_of healthy_runner) 0)
       earlier_results
       (VDict {["columnCount" := VInt 2]}, None, ProfilerInterface.Table))
    (VDict {["max" := VInt 47]}, Some "age", ProfilerInterface.Static).

End Scenarios.

(** ** Dataframe chunks of a numeric column *)

Module Dataframes.
Import Registry Metrics.


End Dataframes.

(** ** profiler/interface/sqlalchemy/bigquery/profiler_interface.py *)

Module BigQueryInterface.
Import Registry Metrics.

(** A BigQuery column type: a plain type, or a [STRUCT] with its fields by
    name ([_STRUCT_byname], in field order). *)
Inductive BqType : Type :=
| Plain (t : SqlType)
| STRUCT (fields : list (string * BqType)).

(** What one item [(key, value)] of the loop of [_get_struct_columns]
    contributes under the name [nm = parent.key]: the column itself, or the
    columns of the nested struct. *)
Fixpoint item_columns (value : BqType) (nm : string) : list Column :=
  match value with
  | Plain t => [mkColumn nm t None]
  | STRUCT fields =>
      (fix items (fs : list (string * BqType)) : list Column :=
         match fs with
         | [] => []
         | (key, v) :: rest =>
             (item_columns v (nm ++ "." ++ key) ++ items rest)%list
         end) fields
  end.

(** [_get_struct_columns] *)
Definition _get_struct_columns (columns : list (string * BqType))
  (parent : string) : list Column :=
  flat_map (fun kv => item_columns kv.2 (parent ++ "." ++ kv.1)) columns.

(** A column of the ORM table: its name, its type and the table it is bound
    to. *)
Record TableColumn : Type := mkTableColumn {
  tc_name : string;
  tc_type : BqType;
  tc_table : string
}.

(** [BigQueryProfilerInterface.get_columns] *)
Definition get_columns (table_columns : list TableColumn) : list Column :=
  flat_map
    (fun c =>
       match tc_type c with
       | STRUCT fields => _get_struct_columns fields (tc_name c)
       | Plain t => [mkColumn (tc_name c) t (Some (tc_table c))]
       end)
    table_columns.

(** The number of plain fields below a type. *)
Fixpoint leaves (t : BqType) : nat :=
  match t with
  | Plain _ => 1
  | STRUCT fields =>
      (fix go (fs : list (string * BqType)) : nat :=
         match fs with
         | [] => 0
         | (_, v) :: rest => leaves v + go rest
         end) fields
  end.

End BigQueryInterface.

(** ** The thread-local sampler of the profiler interface *)

Module ThreadLocal.

(** The attributes of the interface that [_get_sampler] passes on. *)
Record InterfaceConfig : Type := mkInterfaceConfig {
  profile_sample_config : option Sampler.ProfileSampleConfig;
  partition_details : option Sampler.PartitionProfilerConfig;
  profile_query : option string
}.

(** [_get_sampler(table=table, session=session)]: the sampler the factory
    builds through [SamplerInterface.__init__]. *)
Definition _get_sampler (self : InterfaceConfig) (table : string)
  : Sampler.SQASampler :=
  Sampler.init table (profile_sample_config self) (partition_details self)
               (profile_query self).

(** [thread_local.sampler], unset until the first unit of the thread. *)
Definition Slot : Type := option Sampler.SQASampler.

(** [_create_thread_safe_sampler]: the sampler it returns and the slot it
    leaves. *)
Definition _create_thread_safe_sampler (self : InterfaceConfig)
  (slot : Slot) (table : string) : Sampler.SQASampler * Slot :=
  match slot with
  | Some sampler => (sampler, Some sampler)
  | None =>
      let sampler := _get_sampler self table in
      (sampler, Some sampler)
  end.

(** The samplers a thread hands to its successive units, one table after
    the other. *)
Fixpoint samplers_for (self : InterfaceConfig) (slot : Slot)
  (tables : list string) : list Sampler.SQASampler :=
  match tables with
  | [] => []
  | t :: rest =>
      let r := _create_thread_safe_sampler self slot t in
      r.1 :: samplers_for self r.2 rest
  end.

End ThreadLocal.

(** ** Which row the MySQL form of the median selects *)

Module MedianRows.


End MedianRows.

(** ** The errors of the handlers' own overflow test *)

Module HandlerErrors.

(** [errno in OVERFLOW_ERROR_CODES.get(dialect)] when the dialect has no
    entry. *)
Definition membership_error : Exc :=
  PyError "TypeError" "argument of type 'NoneType' is not iterable".

(** [exc.orig.errno] when the driver's error, of class [cls], has no such
    attribute. *)
Definition missing_errno_error (cls : string) : Exc :=
  PyError "AttributeError" ("'" ++ cls ++ "' object has no attribute 'errno'").

(** [if row:] in the window handler when [row] was never assigned. *)
Definition unbound_row_error : Exc :=
  PyError "UnboundLocalError"
          "local variable 'row' referenced before assignment".

End HandlerErrors.

(** ** Comparing aggregate results *)

Module Aggregation.
Import ProfilerInterface.

(** [res'] holds every key of [res]: the keys of the table map, the columns
    and the keys of each column, and "system" once it is set. *)
Definition extends (res res' : ProfileResults) : Prop :=
  dom (table res) ⊆ dom (table res')
  /\ (forall c e, columns res !! c = Some e ->
        exists e', columns res' !! c = Some e' /\ dom e ⊆ dom e')
  /\ (is_Some (system res) -> is_Some (system res')).

(** A future that holds a result or was cancelled. *)
Definition settled (f : Future) : Prop :=
  match f with
  | Cancelled | Completed _ => True
  | TimedOut | Failed _ => False
  end.

(** The future a unit leaves when its worker returned. *)
Definition completed_for (u : WorkUnit) (f : Future) : Prop :=
  exists row,
    f = Completed (row, option_map Metrics.col_name (unit_column u),
                   unit_type u).

End Aggregation.

(** ** profiler/source/base/profiler_source.py *)

Module ProfilerSource.

(** [columnConfig] of a table configuration of the workflow. *)
Record ColumnConfig : Type := mkColumnConfig {
  includeColumns : option (list string);
  excludeColumns : option (list string)
}.

(** [TableConfig] *)
Record TableConfig : Type := mkTableConfig {
  fullyQualifiedName : string;
  columnConfig : option ColumnConfig
}.

(** The table entity: its name and its own [tableProfilerConfig]. *)
Record Table : Type := mkTable {
  entity_fqn : string;
  tableProfilerConfig : option ColumnConfig
}.

(** [_get_config_for_table]; [tableConfig] is falsy when absent or empty. *)
Definition _get_config_for_table (entity : Table)
  (tableConfig : option (list TableConfig)) : option TableConfig :=
  match tableConfig with
  | None | Some [] => None
  | Some configs =>
      List.find (fun table_config =>
                   String.eqb (fullyQualifiedName table_config)
                              (entity_fqn entity))
                configs
  end.

(** [_get_include_columns] *)
Definition _get_include_columns (entity : Table)
  (entity_config : option TableConfig) : option (list string) :=
  match entity_config with
  | Some (mkTableConfig _ (Some cc)) => includeColumns cc
  | _ =>
      match tableProfilerConfig entity with
      | Some pc => includeColumns pc
      | None => None
      end
  end.

(** [_get_exclude_columns] *)
Definition _get_exclude_columns (entity : Table)
  (entity_config : option TableConfig) : option (list string) :=
  match entity_config with
  | Some (mkTableConfig _ (Some cc)) => excludeColumns cc
  | _ =>
      match tableProfilerConfig entity with
      | Some pc => excludeColumns pc
      | None => None
      end
  end.

(** The [include_columns] and [exclude_columns] that [get_profiler_runner]
    hands to the profiler, from the configuration it looked up. *)
Definition get_profiler_runner_columns (entity : Table)
  (tableConfig : option (list TableConfig))
  : option (list string) * option (list string) :=
  let table_config := _get_config_for_table entity tableConfig in
  (_get_include_columns entity table_config,
   _get_exclude_columns entity table_config).

End ProfilerSource.

(** ** Proof steps for monadic code *)

Ltac unfold_monad :=
  unfold ProfilerInterface.try_except, ProfilerInterface.bind,
    ProfilerInterface.lift, ProfilerInterface.ret, ProfilerInterface.raise,
    ProfilerInterface.logger, ProfilerInterface.rollback,
    ProfilerInterface.update_status,
    ProfilerInterface.handle_query_exception,
    ProfilerInterface.dict_of_first in *.

Ltac step_outcomes :=
  repeat (unfold_monad; cbn in *;
          match goal with
          | H : (_, _) = (_, _) |- _ => inversion H; subst; clear H
          | H : Returns _ = Raises _ |- _ => discriminate H
          | H : Raises _ = Returns _ |- _ => discriminate H
          | H : Returns _ = Returns _ |- _ => inversion H; subst; clear H
          | H : Raises _ = Raises _ |- _ => inversion H; subst; clear H
          | H : context [match ?x with _ => _ end] |- _ => destruct x eqn:?
          end).

(** * Properties *)

(** ** Metric compilation *)

Module MetricsProps.
Import Registry Metrics.





(** C7. On a concatenable (text) column mean, sum and stddev compile to their
    numeric aggregate over the length transform of the column; on the values
    "a", "bb", "ccc" the compiled mean evaluates to 2, and so does the
    dataframe fallback. *)
Theorem text_metrics_use_length (col : Column) :
  is_concatenable (col_type col) = true ->
  let len := LenFn (column (col_name col) (col_type col)) in
  fn Mean col = Some ("mean", func_avg len)
  /\ fn Sum col = Some ("sum", SumFn len)
  /\ fn StdDev col = Some ("stddev", StdDevFn len)
  /\ (exists q, eval_aggregate (func_avg len) Scenarios.abc_cells = Some q
                /\ (q == 2)%Q)
  /\ (exists q, Mean_df_fn col [Scenarios.abc_chunk] = Returns (Some q)
                /\ (q == 2)%Q).
Proof.
  intros Hc len. subst len.
  destruct col as [nm [tn fam dec] tbl]. unfold is_concatenable in Hc.
  cbn in Hc. destruct fam; try discriminate. cbn.
  repeat split; try reflexivity.
  - eexists. split; [reflexivity|]. reflexivity.
  - eexists. split; [reflexivity|]. reflexivity.
Qed.

Lemma text_metrics_use_length_witness :
  fn Mean Scenarios.name_col
  = Some ("mean", func_avg (LenFn (column "name" Scenarios.text_type)))
  /\ (exists q,
        eval_aggregate (func_avg (LenFn (column "name" Scenarios.text_type)))
                       Scenarios.abc_cells = Some q
        /\ (q == 2)%Q).
Proof.
  destruct (text_metrics_use_length Scenarios.name_col eq_refl)
    as (Hmean & _ & _ & Heval & _).
  split; [exact Hmean|exact Heval].
Defined.

End MetricsProps.

(** ** Median compilation *)

Module MedianProps.
Import Registry Median.

Lemma Qfloor_minus_one (z : Q) : Qfloor (z - 1) = (Qfloor z - 1)%Z.
Proof.
  apply Z.le_antisymm.
  - pose proof (Qlt_floor z) as H. rewrite inject_Z_plus in H.
    pose proof (Qfloor_le (z - 1)) as H1.
    assert (H2 : (inject_Z (Qfloor (z - 1)) < inject_Z (Qfloor z))%Q).
    { change (inject_Z 1) with 1%Q in H. lra. }
    rewrite <- Zlt_Qlt in H2. lia.
  - pose proof (Qfloor_le z) as H.
    assert (H1 : (inject_Z (Qfloor z - 1) <= z - 1)%Q).
    { unfold Z.sub. rewrite inject_Z_plus.
      assert (E : (inject_Z (-1) == -(1))%Q) by reflexivity.
      rewrite E. lra. }
    apply Qfloor_resp_le in H1. rewrite Qfloor_Z in H1. exact H1.
Qed.

Lemma sqlite_offset_below_spec (count : Z) (p : Q) :
  (1 <= inject_Z count * p)%Q ->
  sqlite_offset count p = (spec_offset count p - 1)%Z.
Proof.
  intros H. unfold sqlite_offset, spec_offset, round_half_away.
  assert (H0 : (0 <= inject_Z count * p - 1)%Q) by lra.
  assert (H1 : (0 <= inject_Z count * p)%Q) by lra.
  apply Qle_bool_iff in H0, H1. rewrite H0, H1.
  rewrite <- Qfloor_minus_one.
  apply Qfloor_comp. ring.
Qed.

(** C8, as stated, fails: for the median of three non-null rows the SQLite
    form is compiled with the offset [ROUND(COUNT( * ) * 0.5 -1)], which is
    row 1, while [round(count*p)] is row 2. *)
Lemma sqlite_offset_is_not_round_count_p :
  compile Scenarios.process_plain Scenarios.fmt_2f_quartiles
          Scenarios.fmt_float_quartiles SQLite Scenarios.median_of_age
  = Returns (lines [
      "";
      "    (SELECT ";
      "        age";
      "    FROM users";
      "    WHERE age IS NOT NULL";
      "    ORDER BY age";
      "    LIMIT 1";
      "    OFFSET (";
      "            SELECT ROUND(COUNT(" ++ star ++ ") * 0.5 -1)";
      "            FROM users";
      "            WHERE age IS NOT NULL";
      "        )";
      "    )";
      "    " ])
  /\ sqlite_offset 3 (1 # 2) = 1%Z
  /\ spec_offset 3 (1 # 2) = 2%Z
  /\ sqlite_offset 3 (1 # 2) <> spec_offset 3 (1 # 2).
Proof.
  repeat split; try reflexivity. vm_compute. discriminate.
Qed.

(** C8, amended.  The compiled form of a median is chosen by the dialect of
    the statement compiler alone: a dialect without an entry of its own gets
    [percentile_cont(p) WITHIN GROUP (ORDER BY col ASC)], Athena, Trino and
    Presto get [approx_percentile(col, p)], and SQLite gets a sub-select over
    the non-null values ordered by the column with [LIMIT 1] and the offset
    [ROUND(COUNT( * ) * p -1)], one row before [round(count*p)] as soon as
    [count*p] reaches 1. *)
Theorem median_strategy_by_dialect
  (process : Clause -> string) (fmt_2f fmt_float : Q -> string)
  (el : MedianFn) :
  let col := process (clause0 el) in
  let table := table_value el in
  let p := percentile_value el in
  let default_form :=
    "percentile_cont(" ++ fmt_2f p ++ ") WITHIN GROUP (ORDER BY "
      ++ col ++ " ASC)" in
  let approx_form := "approx_percentile(" ++ col ++ ", " ++ fmt_2f p ++ ")" in
  (forall n, compile process fmt_2f fmt_float (OtherDialect n) el
             = Returns default_form)
  /\ compile process fmt_2f fmt_float Snowflake el = Returns default_form
  /\ compile process fmt_2f fmt_float MariaDB el = Returns default_form
  /\ compile process fmt_2f fmt_float Athena el = Returns approx_form
  /\ compile process fmt_2f fmt_float Trino el = Returns approx_form
  /\ compile process fmt_2f fmt_float Presto el = Returns approx_form
  /\ compile process fmt_2f fmt_float SQLite el
     = Returns (lines [
         "";
         "    (SELECT ";
         "        " ++ col;
         "    FROM " ++ table;
         "    WHERE " ++ col ++ " IS NOT NULL";
         "    ORDER BY " ++ col;
         "    LIMIT 1";
         "    OFFSET (";
         "            SELECT ROUND(COUNT(" ++ star ++ ") * " ++ fmt_float p
           ++ " -1)";
         "            FROM " ++ table;
         "            WHERE " ++ col ++ " IS NOT NULL";
         "        )";
         "    )";
         "    " ])
  /\ forall count,
       (1 <= inject_Z count * p)%Q ->
       sqlite_offset count p = (spec_offset count p - 1)%Z.
Proof.
  cbv zeta. repeat split; try reflexivity.
  intros count H. now apply sqlite_offset_below_spec.
Qed.

Lemma median_strategy_by_dialect_witness :
  compile Scenarios.process_plain Scenarios.fmt_2f_quartiles
          Scenarios.fmt_float_quartiles Trino Scenarios.median_of_age
  = Returns "approx_percentile(age, 0.50)"
  /\ (1 <= inject_Z 3 * (1 # 2))%Q
  /\ sqlite_offset 3 (1 # 2) = (spec_offset 3 (1 # 2) - 1)%Z.
Proof.
  destruct (median_strategy_by_dialect Scenarios.process_plain
              Scenarios.fmt_2f_quartiles Scenarios.fmt_float_quartiles
              Scenarios.median_of_age)
    as (_ & _ & _ & _ & Htrino & _ & _ & Hoff).
  split; [exact Htrino|].
  assert (Hge : (1 <= inject_Z 3 * (1 # 2))%Q) by (vm_compute; discriminate).
  split; [exact Hge|]. exact (Hoff 3%Z Hge).
Defined.

End MedianProps.

(** ** Sampling *)

Module SamplerProps.
Import Registry Sampler.

Lemma imap_fst_preserved {A B : Type} (g : nat -> B) (l : list (A * B)) :
  map fst (imap (fun i lr => (lr.1, g i)) l) = map fst l.
Proof.
  revert g. induction l as [|x l IH]; intros g; [reflexivity|].
  cbn. f_equal. apply (IH (g ∘ S)).
Qed.

Lemma label_rows_fst eng m l : map fst (label_rows eng m l) = map fst l.
Proof.
  unfold label_rows.
  apply (imap_fst_preserved (fun i => Some (rand eng i mod m)%Z)).
Qed.

Lemma label_rows_length eng m l : length (label_rows eng m l) = length l.
Proof.
  unfold label_rows. apply length_imap.
Qed.

Lemma keep_indexed_In {A} (keep : nat -> bool) (l : list A) (x : A) :
  In x (keep_indexed keep l) -> In x l.
Proof.
  unfold keep_indexed. revert keep.
  induction l as [|y l IH]; intros keep; cbn; [tauto|].
  destruct (keep 0%nat); cbn.
  - intros [->|H]; [now left|right]. exact (IH (keep ∘ S) H).
  - intros H. right. exact (IH (keep ∘ S) H).
Qed.

Lemma In_map_fst_sub {A B} (l l' : list (A * B)) :
  (forall x, In x l -> In x l') ->
  forall r, In r (map fst l) -> In r (map fst l').
Proof.
  intros H r Hr. apply in_map_iff in Hr as (x & <- & Hx).
  apply in_map. auto.
Qed.

Lemma merge_sort_In (l : list LRow) x : In x (merge_sort label_le l) -> In x l.
Proof.
  intros H. eapply Permutation_in; [|exact H].
  apply merge_sort_Permutation.
Qed.

Lemma merge_sort_length (l : list LRow) :
  length (merge_sort label_le l) = length l.
Proof. apply Permutation_length, merge_sort_Permutation. Qed.

Lemma firstn_In {A} n (l : list A) x : In x (firstn n l) -> In x l.
Proof.
  revert l. induction n as [|n IH]; intros [|y l]; cbn; try tauto.
  intros [->|H]; [now left|right; auto].
Qed.

Lemma table_rows_fst eng :
  map fst (selectable_rows eng table_ref) = table_rows eng.
Proof. cbn. rewrite map_map. cbn. apply map_id. Qed.

(** Rows of a sample query come from the rows of its source. *)
Lemma sample_query_rows_from_source eng self src r :
  In r (map fst (selectable_rows eng (sample_query_from eng self src))) ->
  In r (map fst (selectable_rows eng src)).
Proof.
  unfold sample_query_from.
  destruct (decide (profile_sample_type self = Some PERCENTAGE)) as [_|_].
  - cbn [selectable_rows query_rows].
    rewrite <- (label_rows_fst eng 100 (selectable_rows eng src)).
    apply In_map_fst_sub. intros x Hx.
    apply filter_In in Hx as [Hx _].
    destruct (decide (engine_dialect eng = Snowflake)); [|exact Hx].
    now apply keep_indexed_In in Hx.
  - cbn [selectable_rows query_rows].
    rewrite <- (label_rows_fst eng (table_query_count eng)
                  (selectable_rows eng src)).
    apply In_map_fst_sub. intros x Hx.
    destruct (profile_sample self) as [n|].
    + apply firstn_In in Hx. now apply merge_sort_In in Hx.
    + now apply merge_sort_In in Hx.
Qed.

Lemma partitioned_rows eng f :
  map fst (selectable_rows eng
             (subquery (filter_ (query_entity table_ref None) f)))
  = List.filter (matches eng f) (table_rows eng).
Proof.
  cbn. induction (table_rows eng) as [|r l IH]; [reflexivity|].
  cbn. destruct (matches eng f r); cbn; now rewrite IH.
Qed.

Lemma aliased_rows_fst eng s :
  map fst (selectable_rows eng (aliased s)) = map fst (selectable_rows eng s).
Proof. cbn. rewrite map_map. reflexivity. Qed.

(** C4, amended.  With a partition configured (value list, integer range or
    time window) and no literal profile query, the partition filter is applied
    to the table before any row-count or percentage sampling, and without a
    sample size the filtered table itself is returned; every row of the
    returned sample is a row of the table that satisfies the partition
    filter. *)
Theorem sample_within_partition eng self pd :
  _partition_details self = Some pd ->
  truthy_str (_profile_sample_query self) = false ->
  let filtered := subquery (filter_ (query_entity table_ref None)
                                    (partition_filter pd)) in
  random_sample eng self
  = (if truthy_num (profile_sample self)
     then HSelectable (aliased (sample_query_from eng self filtered))
     else HSelectable (aliased filtered))
  /\ forall r, In r (handle_rows eng (random_sample eng self)) ->
       In r (table_rows eng) /\ matches eng (partition_filter pd) r = true.
Proof.
  intros Hpd Hq filtered.
  assert (E : random_sample eng self
              = if truthy_num (profile_sample self)
                then HSelectable (aliased (sample_query_from eng self filtered))
                else HSelectable (aliased filtered)).
  { unfold random_sample, get_sample_query. rewrite Hq, Hpd.
    destruct (truthy_num (profile_sample self)); reflexivity. }
  split; [exact E|].
  intros r Hr. rewrite E in Hr. apply filter_In.
  rewrite <- (partitioned_rows eng (partition_filter pd)).
  destruct (truthy_num (profile_sample self)); unfold handle_rows in Hr;
    rewrite aliased_rows_fst in Hr.
  - now apply sample_query_rows_from_source in Hr.
  - exact Hr.
Qed.

Lemma truthy_num_pos (N : nat) :
  (1 <= N)%nat -> truthy_num (Some (inject_Z (Z.of_nat N))) = true.
Proof.
  intros H. unfold truthy_num, Qeq_bool. cbn.
  apply negb_true_iff. apply Z.eqb_neq. lia.
Qed.

(** C3, amended.  For a row-count sample of [N >= 1] rows with [N] at most
    the table's row count, no literal query and no partition, [random_sample]
    is the alias of the query that labels each row with
    [modulo(random(), count of the table)], orders by that label and limits to
    [N]; it has exactly [N] rows, all of them rows of the table. *)
Theorem row_count_sample_exact eng self (N : nat) :
  profile_sample self = Some (inject_Z (Z.of_nat N)) ->
  profile_sample_type self <> Some PERCENTAGE ->
  truthy_str (_profile_sample_query self) = false ->
  _partition_details self = None ->
  (1 <= N)%nat ->
  (N <= length (table_rows eng))%nat ->
  random_sample eng self
  = HSelectable
      (aliased
         (cte (limit
                 (order_by
                    (query_entity table_ref (Some (table_query_count eng)))
                    RANDOM_LABEL)
                 (Some (inject_Z (Z.of_nat N))))
              (tablename self ++ "_rnd")))
  /\ length (handle_rows eng (random_sample eng self)) = N
  /\ forall r, In r (handle_rows eng (random_sample eng self)) ->
               In r (table_rows eng).
Proof.
  intros Hs Ht Hq Hp HN Hle.
  assert (E : random_sample eng self
  = HSelectable
      (aliased
         (cte (limit
                 (order_by
                    (query_entity table_ref (Some (table_query_count eng)))
                    RANDOM_LABEL)
                 (Some (inject_Z (Z.of_nat N))))
              (tablename self ++ "_rnd")))).
  { unfold random_sample, get_sample_query, sample_query_from.
    rewrite Hq, Hp, Hs, (truthy_num_pos N HN). cbn [negb].
    destruct (decide (profile_sample_type self = Some PERCENTAGE));
      [contradiction|reflexivity]. }
  split; [exact E|]. rewrite E. split.
  - unfold handle_rows. rewrite length_map.
    cbn [selectable_rows query_rows]. rewrite length_map.
    assert (Ha : asint (inject_Z (Z.of_nat N)) = Z.of_nat N).
    { unfold asint.
      assert (Hb : Qle_bool 0 (inject_Z (Z.of_nat N)) = true).
      { apply Qle_bool_iff. rewrite <- (Zle_Qle 0). lia. }
      rewrite Hb. apply Qfloor_Z. }
    rewrite Ha, Nat2Z.id, length_take, merge_sort_length, label_rows_length,
      length_map. lia.
  - intros r Hr. unfold handle_rows in Hr. rewrite aliased_rows_fst in Hr.
    cbn [selectable_rows query_rows] in Hr.
    rewrite <- table_rows_fst.
    rewrite <- (label_rows_fst eng (table_query_count eng)
                  (selectable_rows eng table_ref)).
    revert r Hr. apply In_map_fst_sub. intros x Hx.
    apply firstn_In in Hx. now apply merge_sort_In in Hx.
Qed.

(** C5. When a literal (non-empty) profile query is supplied, [random_sample]
    is that statement, whatever the partition and sample configuration, its
    rows are the rows the statement returns, and [fetch_sample_data] returns
    the columns of the same statement with its first 100 rows. *)
Theorem user_query_used_verbatim eng self (q : string) :
  _profile_sample_query self = Some q ->
  q <> "" ->
  random_sample eng self
  = HQuery (from_statement (query_entity table_ref None) q)
  /\ handle_rows eng (random_sample eng self)
     = map (zip (execute eng q).1) (execute eng q).2
  /\ fetch_sample_data eng self
     = mkTableData (execute eng q).1 (firstn 100 (execute eng q).2)
  /\ (length (rows (fetch_sample_data eng self)) <= 100)%nat.
Proof.
  intros Hq Hne.
  assert (Ht : truthy_str (_profile_sample_query self) = true).
  { rewrite Hq. cbn. apply negb_true_iff. now apply String.eqb_neq. }
  assert (E : random_sample eng self
              = HQuery (from_statement (query_entity table_ref None) q)).
  { unfold random_sample. rewrite Ht, Hq. reflexivity. }
  assert (F : fetch_sample_data eng self
     = mkTableData (execute eng q).1 (firstn 100 (execute eng q).2)).
  { unfold fetch_sample_data. rewrite Ht, Hq. reflexivity. }
  repeat split; try assumption.
  - rewrite E. cbn. rewrite map_map. reflexivity.
  - rewrite F. cbn [rows]. rewrite length_take. lia.
Qed.


(** C3, as stated, fails for [N = 0]: a row-count configuration of zero rows
    is read as "no sample" and the whole table is returned. *)
Lemma zero_row_sample_is_whole_table :
  profile_sample Scenarios.zero_rows_sampler = Some (inject_Z (Z.of_nat 0))
  /\ profile_sample_type Scenarios.zero_rows_sampler = Some ROWS
  /\ (0 <= length (table_rows Scenarios.users_engine))%nat
  /\ random_sample Scenarios.users_engine Scenarios.zero_rows_sampler
     = HSelectable table_ref
  /\ length (handle_rows Scenarios.users_engine
               (random_sample Scenarios.users_engine
                  Scenarios.zero_rows_sampler)) = 3%nat
  /\ length (handle_rows Scenarios.users_engine
               (random_sample Scenarios.users_engine
                  Scenarios.zero_rows_sampler)) <> 0%nat.
Proof.
  repeat split; try reflexivity.
  - cbn. lia.
  - vm_compute. discriminate.
Qed.

(** C4, as stated, fails when a literal profile query is supplied: the
    partition and the sample size are both passed over, and the rows are those
    of the query, whether or not they satisfy the partition filter. *)
Lemma literal_query_escapes_partition :
  _partition_details Scenarios.query_sampler = Some Scenarios.adults
  /\ profile_sample Scenarios.query_sampler = Some 2%Q
  /\ profile_sample_type Scenarios.query_sampler = Some ROWS
  /\ In [("id", VInt 9); ("age", VInt 99)]
        (handle_rows Scenarios.users_engine
           (random_sample Scenarios.users_engine Scenarios.query_sampler))
  /\ matches Scenarios.users_engine (partition_filter Scenarios.adults)
             [("id", VInt 9); ("age", VInt 99)] = false
  /\ ~ In [("id", VInt 9); ("age", VInt 99)]
          (List.filter
             (matches Scenarios.users_engine
                      (partition_filter Scenarios.adults))
             (table_rows Scenarios.users_engine)).
Proof.
  repeat split; try reflexivity.
  - vm_compute. left. reflexivity.
  - intros H. apply filter_In in H as [_ H]. vm_compute in H. discriminate H.
Qed.

Lemma row_count_sample_exact_witness :
  length (handle_rows Scenarios.users_engine
            (random_sample Scenarios.users_engine
               Scenarios.two_rows_sampler)) = 2%nat.
Proof.
  refine (proj1 (proj2 (row_count_sample_exact Scenarios.users_engine
            Scenarios.two_rows_sampler 2 _ _ _ _ _ _))).
  - reflexivity.
  - discriminate.
  - reflexivity.
  - reflexivity.
  - lia.
  - cbn. lia.
Defined.

Lemma sample_within_partition_witness :
  In [("id", VInt 2); ("age", VInt 47)]
     (handle_rows Scenarios.users_engine
        (random_sample Scenarios.users_engine Scenarios.adults_sampler))
  /\ In [("id", VInt 2); ("age", VInt 47)]
        (table_rows Scenarios.users_engine)
  /\ matches Scenarios.users_engine (partition_filter Scenarios.adults)
             [("id", VInt 2); ("age", VInt 47)] = true.
Proof.
  assert (Hin : In [("id", VInt 2); ("age", VInt 47)]
                   (handle_rows Scenarios.users_engine
                      (random_sample Scenarios.users_engine
                         Scenarios.adults_sampler))).
  { vm_compute. left. reflexivity. }
  split; [exact Hin|].
  refine (proj2 (sample_within_partition Scenarios.users_engine
            Scenarios.adults_sampler Scenarios.adults _ _) _ Hin).
  - reflexivity.
  - reflexivity.
Defined.

Lemma user_query_used_verbatim_witness :
  random_sample Scenarios.users_engine Scenarios.query_sampler
  = HQuery (from_statement (query_entity table_ref None)
                           Scenarios.literal_query)
  /\ fetch_sample_data Scenarios.users_engine Scenarios.query_sampler
     = mkTableData ["id"; "age"] [[VInt 9; VInt 99]].
Proof.
  destruct (user_query_used_verbatim Scenarios.users_engine
              Scenarios.query_sampler Scenarios.literal_query)
    as (H1 & _ & H3 & _).
  - reflexivity.
  - discriminate.
  - split; [exact H1|exact H3].
Defined.

End SamplerProps.

(** ** The profiler interface *)

Module InterfaceProps.
Import Registry Metrics ProfilerInterface.

Lemma wo_sum_effects runner metrics col w o w' :
  _compute_static_metrics_wo_sum runner metrics col w = (o, w') ->
  effects_of w o w'.
Proof.
  unfold _compute_static_metrics_wo_sum, effects_of. unfold_monad.
  intros H. step_outcomes; cbn; auto.
Qed.

Lemma is_overflow_raises runner orig e :
  is_overflow runner orig = Raises e -> exists cls msg, e = PyError cls msg.
Proof.
  unfold is_overflow. intros H.
  destruct orig as [dbapi|]; [|discriminate].
  destruct (dbapi_errno dbapi); [|inversion H; eauto].
  destruct (OVERFLOW_ERROR_CODES (session_dialect runner)); [discriminate|].
  inversion H. eauto.
Qed.

Lemma get_metrics_effects runner u sample w o w' :
  _get_metrics runner u sample w = (o, w') -> effects_of w o w'.
Proof.
  destruct u as [ms|ms c|m c|ms c|m|h ms c]; cbn [_get_metrics].
  - unfold get_metrics_table, effects_of. unfold_monad.
    intros H. step_outcomes; cbn; auto.
  - unfold get_metrics_static.
    intros H.
    destruct (select_first_from_sample runner (static_statement ms c))
      as [[row|]|[orig msg|cls msg|cause]] eqn:E;
      unfold bind at 1, lift at 1 in H; rewrite ?E in H; cbn in H.
    all: try (unfold effects_of; step_outcomes; cbn; auto; fail).
    destruct (is_overflow runner orig) as [[|]|e] eqn:Ho.
    + unfold bind, logger in H. cbn in H.
      apply wo_sum_effects in H. unfold effects_of in *. cbn in H. exact H.
    + inversion H; subst. unfold effects_of. auto.
    + inversion H; subst. apply is_overflow_raises in Ho as (cls' & msg' & ->).
      unfold effects_of. auto.
  - unfold get_metrics_query, effects_of. unfold_monad.
    intros H. step_outcomes; cbn; auto.
  - unfold get_metrics_window, effects_of. unfold is_overflow.
    intros H. step_outcomes; cbn; auto.
    split; [reflexivity|]. destruct a; reflexivity.
  - unfold get_metrics_system, effects_of. unfold_monad.
    intros H. step_outcomes; cbn; auto.
  - unfold get_metrics_default, effects_of. unfold_monad.
    intros H. step_outcomes; cbn; auto.
Qed.


Lemma compute_with_sample_returns env u sample w v w1 :
  _get_metrics (runner env) u sample w = (Returns v, w1) ->
  compute_with_sample env u sample w
  = (Returns (v, option_map col_name (unit_column u), unit_type u),
     after_unit env u w1 None).
Proof.
  intros H. unfold compute_with_sample, try_except, bind. rewrite H.
  unfold after_unit, scan_id. destruct (unit_column u); reflexivity.
Qed.

Lemma compute_with_sample_raises env u sample w exc w1 :
  _get_metrics (runner env) u sample w = (Raises exc, w1) ->
  compute_with_sample env u sample w
  = (Returns (VNone, option_map col_name (unit_column u), unit_type u),
     after_unit env u w1 (Some exc)).
Proof.
  intros H. unfold compute_with_sample, try_except, bind. rewrite H.
  unfold after_unit, scan_id. destruct (unit_column u); reflexivity.
Qed.

Lemma failed_profiler_failures st err trace :
  StatusApi.failures (StatusApi.failed_profiler st err trace)
  = (StatusApi.failures st
      ++ [StatusApi.mkStackTraceError (default "" (StatusApi.entity st))
                                      err trace])%list.
Proof.
  unfold StatusApi.failed_profiler, StatusApi.failed. cbn.
  destruct (StatusApi.entity st) as [e|]; cbn; [|reflexivity].
  destruct (String.eqb e "") eqn:E; cbn; [|reflexivity].
  apply String.eqb_eq in E. now subst.
Qed.

Lemma column_unit_type u c :
  unit_column u = Some c -> unit_type u <> Table /\ unit_type u <> System.
Proof.
  destruct u as [| | | | |[|] ? ?]; cbn; intros H; try discriminate;
    split; discriminate.
Qed.

Lemma merge_result_cases ts res profile col mt :
  merge_result ts res (profile, col, mt)
  = match mt with
    | Table =>
        mkProfileResults (dict_update (table res) (as_dict profile))
                         (columns res) (system res)
    | System => mkProfileResults (table res) (columns res) (Some profile)
    | _ =>
        mkProfileResults
          (table res)
          (<[col := dict_update (default ∅ (columns res !! col))
                                (annotated col ts (as_dict profile))]>
             (columns res))
          (system res)
    end.
Proof.
  unfold merge_result.
  destruct mt; repeat case_bool_decide; try congruence;
    destruct profile; reflexivity.
Qed.

(** C1, amended.  When the metric computation of a unit raises, the exception
    is caught and logged as an error, a failure is appended to the processor
    status under the status' entity name (the empty string without one) with
    an error text that starts with the unit's column or table identifier, and
    the unit's row is [None]; the session has been rolled back when the
    exception went through [handle_query_exception] or the table handler's
    own clause (it is then a [RuntimeError]).  In the aggregate the unit adds
    no metric value: the table map is unchanged, a system unit sets "system"
    to [None], and a column unit merges only its name and timestamp into
    [columns[column]]. *)
Theorem failing_unit_is_recorded env u sample w exc w1 :
  _get_metrics (runner env) u sample w = (Raises exc, w1) ->
  exists w2,
    compute_with_sample env u sample w
    = (Returns (VNone, option_map col_name (unit_column u), unit_type u), w2)
    /\ StatusApi.failures (processor_status w2)
       = (StatusApi.failures (processor_status w)
         ++ [StatusApi.mkStackTraceError
               (default "" (StatusApi.entity (processor_status w)))
               (failure_text env u exc) (Some (format_exc exc))])%list
    /\ In (ERROR, failure_text env u exc) (log w2)
    /\ (forall cause, exc = RuntimeError cause ->
          session_rollbacks w2 = S (session_rollbacks w))
    /\ forall ts res,
         let res' :=
           merge_result ts res
             (VNone, option_map col_name (unit_column u), unit_type u) in
         table res' = table res
         /\ (unit_type u = System -> system res' = Some VNone)
         /\ (unit_type u <> System -> system res' = system res)
         /\ forall c,
              unit_column u = Some c ->
              columns res' !! Some (col_name c)
              = Some (dict_update
                        (default ∅ (columns res !! Some (col_name c)))
                        (<["timestamp" := VInt ts]>
                           {["name" := VStr (col_name c)]})).
Proof.
  intros H. exists (after_unit env u w1 (Some exc)).
  destruct (get_metrics_effects _ _ _ _ _ _ H) as [Hst Hrb].
  split; [now apply compute_with_sample_raises|].
  split.
  { unfold after_unit. cbn [processor_status]. unfold StatusApi.scanned.
    cbn [StatusApi.failures]. now rewrite failed_profiler_failures, Hst. }
  split; [cbn; apply in_or_app; right; now left|].
  split; [intros cause ->; cbn; exact Hrb|].
  intros ts res. cbv zeta. rewrite merge_result_cases.
  repeat split.
  - destruct (unit_type u); cbn; try reflexivity.
    unfold dict_update. apply (left_id ∅ (∪)).
  - intros ->. reflexivity.
  - intros Hne. destruct (unit_type u); cbn; try reflexivity. congruence.
  - intros c Hc. destruct (column_unit_type u c Hc) as [HT HS].
    rewrite Hc. cbn [option_map].
    destruct (unit_type u); try congruence; cbn;
      rewrite lookup_insert_eq; unfold annotated, dict_update;
      rewrite (left_id ∅ (∪)); reflexivity.
Qed.





Lemma not_degraded_neq m :
  not_in_Sum_StdDev_Mean m = true -> m <> Sum /\ m <> StdDev /\ m <> Mean.
Proof. destruct m; cbn; intros H; try discriminate; repeat split; discriminate. Qed.

(** C2, amended.  When the static statement raises a [ProgrammingError] whose
    code is an overflow code of the session's dialect, the handler logs it and
    runs the statement again without the sum, mean and stddev metrics; every
    other non-window metric stays in the select list, and on success the
    returned row is the [dict] of that second row, with no key added. *)
Theorem overflow_retries_without_sum runner metrics col w cls errno msg codes :
  select_first_from_sample runner (static_statement metrics col)
  = Raises (ProgrammingError (Some (mkDBAPIError cls (Some errno))) msg) ->
  OVERFLOW_ERROR_CODES (session_dialect runner) = Some codes ->
  In errno codes ->
  let info :=
    "Computing metrics without sum for " ++ runner_tablename runner ++ "."
      ++ col_name col in
  let w1 :=
    mkWorld (processor_status w) (session_rollbacks w)
            (log w ++ [(INFO, info)])%list in
  get_metrics_static runner metrics col w
  = _compute_static_metrics_wo_sum runner metrics col w1
  /\ (forall row,
        select_first_from_sample runner (static_statement_wo_sum metrics col)
        = Returns (Some row) ->
        get_metrics_static runner metrics col w
        = (Returns (VDict (dict row)), w1))
  /\ (forall e,
        In (Some e) (static_statement_wo_sum metrics col) ->
        exists m, In m metrics /\ is_window_metric m = false
                  /\ (m <> Sum /\ m <> StdDev /\ m <> Mean)
                  /\ fn m col = Some e)
  /\ (forall m,
        In m metrics -> is_window_metric m = false ->
        not_in_Sum_StdDev_Mean m = true ->
        In (fn m col) (static_statement_wo_sum metrics col)).
Proof.
  intros Hraise Hcodes Hin info w1.
  assert (Hstep : get_metrics_static runner metrics col w
                  = _compute_static_metrics_wo_sum runner metrics col w1).
  { unfold get_metrics_static. unfold bind at 1, lift at 1.
    rewrite Hraise. cbn. unfold is_overflow. cbn [dbapi_errno]. rewrite Hcodes.
    assert (Hex : existsb (Z.eqb errno) codes = true).
    { apply existsb_exists. exists errno. split; [exact Hin|apply Z.eqb_refl]. }
    rewrite Hex. reflexivity. }
  split; [exact Hstep|]. split; [|split].
  - intros row Hrow. rewrite Hstep.
    unfold _compute_static_metrics_wo_sum, try_except, bind, lift.
    rewrite Hrow. reflexivity.
  - intros e He. unfold static_statement_wo_sum in He.
    apply in_map_iff in He as (m & Hfn & Hm).
    apply filter_In in Hm as [Hm Hf]. apply andb_true_iff in Hf as [Hw Hd].
    exists m. split; [exact Hm|]. split; [now apply negb_true_iff in Hw|].
    split; [now apply not_degraded_neq|exact Hfn].
  - intros m Hm Hw Hd. unfold static_statement_wo_sum.
    apply in_map_iff. exists m. split; [reflexivity|].
    apply filter_In. split; [exact Hm|].
    rewrite Hw, Hd. reflexivity.
Qed.

(** C2, as stated, fails: after the retry the row holds the remaining
    metrics only; "sum", "mean" and "stddev" are missing keys, not nulls. *)
Lemma overflow_row_lacks_sum_keys :
  exists d w',
    get_metrics_static Scenarios.overflow_runner [Min; Sum; Mean; StdDev]
                       Scenarios.age_col (initial_world None)
    = (Returns (VDict d), w')
    /\ d !! "min" = Some (VInt 1)
    /\ d !! "sum" = None /\ d !! "mean" = None /\ d !! "stddev" = None
    /\ d !! "sum" <> Some VNone.
Proof.
  eexists _, _. split; [vm_compute; reflexivity|].
  repeat split; try (vm_compute; reflexivity). vm_compute. discriminate.
Qed.

Lemma overflow_retries_without_sum_witness :
  exists w1,
    get_metrics_static Scenarios.overflow_runner [Min; Sum; Mean; StdDev]
                       Scenarios.age_col (initial_world None)
    = (Returns (VDict (dict [("min", VInt 1)])), w1).
Proof.
  eexists.
  refine (proj1 (proj2 (overflow_retries_without_sum
            Scenarios.overflow_runner [Min; Sum; Mean; StdDev]
            Scenarios.age_col (initial_world None) "ProgrammingError"
            100046%Z "Numeric value is out of range" [100046%Z; 100058%Z]
            _ _ _))
            [("min", VInt 1)] _).
  - reflexivity.
  - reflexivity.
  - simpl. auto.
  - reflexivity.
Defined.

(** C1, as stated, fails: a static unit whose query raises is recorded under
    the name "" (the identifier is in the error text only), and the aggregate
    result still gains an entry for the unit's column. *)
Lemma failing_column_unit_still_contributes :
  exists res w',
    get_all_metrics (Scenarios.env_of Scenarios.broken_runner)
                    [StaticUnit [Min] Scenarios.age_col] (initial_world None)
    = (Returns res, w')
    /\ map StatusApi.name (StatusApi.failures (processor_status w')) = [""]
    /\ map StatusApi.error (StatusApi.failures (processor_status w'))
       = ["users.age metric_type.value: connection lost"]
    /\ columns res !! Some "age"
       = Some (<["timestamp" := VInt 1700000000000]> {["name" := VStr "age"]})
    /\ columns res <> columns empty_results.
Proof.
  eexists _, _. split; [vm_compute; reflexivity|].
  repeat split; try (vm_compute; reflexivity).
  intros H. apply (f_equal (fun m => m !! Some "age")) in H.
  vm_compute in H. discriminate.
Qed.

(** A [ProgrammingError] whose code is not an overflow code leaves the static
    handler through its first [except] clause: nothing is rolled back and no
    failure is recorded. *)
Lemma rejected_statement_is_swallowed :
  exists w',
    compute_with_sample (Scenarios.env_of Scenarios.rejecting_runner)
                        (StaticUnit [Min] Scenarios.age_col)
                        (Sampler.HSelectable Sampler.table_ref)
                        (initial_world None)
    = (Returns (VNone, Some "age", Static), w')
    /\ StatusApi.failures (processor_status w') = []
    /\ session_rollbacks w' = 0%nat
    /\ StatusApi.records (processor_status w') = ["users.age"].
Proof.
  eexists. split; [vm_compute; reflexivity|]. repeat split.
Qed.

Lemma failing_unit_is_recorded_witness :
  exists w2,
    compute_with_sample (Scenarios.env_of Scenarios.broken_runner)
                        (StaticUnit [Min] Scenarios.age_col)
                        (Sampler.HSelectable Sampler.table_ref)
                        (initial_world None)
    = (Returns (VNone, Some "age", Static), w2)
    /\ session_rollbacks w2 = 1%nat.
Proof.
  destruct (failing_unit_is_recorded
              (Scenarios.env_of Scenarios.broken_runner)
              (StaticUnit [Min] Scenarios.age_col)
              (Sampler.HSelectable Sampler.table_ref)
              (initial_world None)
              (RuntimeError (PyError "OperationalError" "connection lost"))
              (_get_metrics (runner (Scenarios.env_of Scenarios.broken_runner))
                 (StaticUnit [Min] Scenarios.age_col)
                 (Sampler.HSelectable Sampler.table_ref)
                 (initial_world None)).2
              eq_refl)
    as (w2 & Hrun & _ & _ & Hrb & _).
  exists w2. split; [exact Hrun|]. exact (Hrb _ eq_refl).
Defined.



End InterfaceProps.

(** ** Dataframe fallbacks *)

Module DataframeProps.
Import Registry Metrics Dataframes.










End DataframeProps.

(** ** BigQuery struct columns *)

Module BigQueryProps.
Import Registry Metrics BigQueryInterface.

Lemma append_assoc (a b c : string) : (a ++ b) ++ c = a ++ (b ++ c).
Proof.
  induction a as [|x a IH]; [reflexivity|].
  change (String x ((a ++ b) ++ c) = String x (a ++ (b ++ c))).
  now rewrite IH.
Qed.

(** Induction over a type and the fields below it. *)
Lemma BqType_fields_ind (P : BqType -> Prop) :
  (forall t, P (Plain t)) ->
  (forall fields, Forall (fun kv => P kv.2) fields -> P (STRUCT fields)) ->
  forall t, P t.
Proof.
  intros HP HS.
  fix IH 1. intros [t|fields]; [apply HP|].
  apply HS. induction fields as [|[k v] rest IHf]; constructor.
  - cbn. apply IH.
  - exact IHf.
Qed.

Lemma item_columns_struct (fields : list (string * BqType)) (nm : string) :
  item_columns (STRUCT fields) nm = _get_struct_columns fields nm.
Proof.
  unfold _get_struct_columns. cbn [item_columns].
  induction fields as [|[k v] rest IH]; [reflexivity|].
  cbn [flat_map fst snd]. now rewrite IH.
Qed.

Lemma leaves_struct (fields : list (string * BqType)) :
  leaves (STRUCT fields) = list_sum (map (fun kv => leaves kv.2) fields).
Proof.
  cbn [leaves]. induction fields as [|[k v] rest IH]; [reflexivity|].
  cbn [map list_sum snd]. now rewrite IH.
Qed.

Lemma item_columns_length (value : BqType) :
  forall nm, length (item_columns value nm) = leaves value.
Proof.
  induction value as [t|fields IH] using BqType_fields_ind; intros nm;
    [reflexivity|].
  rewrite item_columns_struct, leaves_struct. unfold _get_struct_columns.
  induction IH as [|[k v] rest Hv _ IHrest]; [reflexivity|].
  cbn [flat_map map list_sum fst snd]. rewrite length_app, Hv, IHrest.
  reflexivity.
Qed.

Lemma item_columns_names (value : BqType) :
  forall nm c,
    In c (item_columns value nm) ->
    col_table c = None
    /\ (col_name c = nm \/ exists rest, col_name c = nm ++ "." ++ rest).
Proof.
  induction value as [t|fields IH] using BqType_fields_ind; intros nm c Hc.
  - cbn in Hc. destruct Hc as [<-|[]]. cbn. auto.
  - rewrite item_columns_struct in Hc. unfold _get_struct_columns in Hc.
    apply in_flat_map in Hc as ([k v] & Hkv & Hc). cbn [fst snd] in Hc.
    rewrite Forall_forall in IH.
    destruct (IH (k, v) ltac:(now apply list_elem_of_In) _ _ Hc)
      as [Ht [Hn|[rest Hn]]].
    + split; [exact Ht|]. right. exists k. exact Hn.
    + split; [exact Ht|]. right. exists (k ++ "." ++ rest).
      rewrite Hn. rewrite !append_assoc. reflexivity.
Qed.

(** X3. [get_columns] replaces every STRUCT column by one column per plain
    field below it, at any depth: the result has as many columns as the table
    has plain columns and plain fields, so a STRUCT without fields yields
    none. *)
Theorem get_columns_counts_leaves (table_columns : list TableColumn) :
  length (get_columns table_columns)
  = list_sum (map (fun c => leaves (tc_type c)) table_columns).
Proof.
  unfold get_columns.
  induction table_columns as [|c rest IH]; [reflexivity|].
  cbn [flat_map map]. rewrite length_app, IH.
  assert (Hc : length (match tc_type c with
                       | STRUCT fields => _get_struct_columns fields (tc_name c)
                       | Plain t => [mkColumn (tc_name c) t (Some (tc_table c))]
                       end) = leaves (tc_type c)).
  { destruct (tc_type c) as [t|fields]; [reflexivity|].
    rewrite <- item_columns_struct. apply item_columns_length. }
  rewrite Hc. reflexivity.
Qed.

(** X4. Every column that [_get_struct_columns] builds for the fields of a
    STRUCT is named after the path to its field, [parent.field...], and is not
    bound to the table. *)
Theorem struct_columns_are_dotted_paths
  (columns : list (string * BqType)) (parent : string) (c : Column) :
  In c (_get_struct_columns columns parent) ->
  col_table c = None
  /\ exists path, col_name c = parent ++ "." ++ path.
Proof.
  unfold _get_struct_columns. intros Hc.
  apply in_flat_map in Hc as ([k v] & _ & Hc). cbn [fst snd] in Hc.
  destruct (item_columns_names v _ c Hc) as [Ht [Hn|[rest Hn]]].
  - split; [exact Ht|]. exists k. exact Hn.
  - split; [exact Ht|]. exists (k ++ "." ++ rest).
    rewrite Hn, !append_assoc. reflexivity.
Qed.

Lemma struct_columns_are_dotted_paths_witness :
  col_table (mkColumn "address.geo.lat" Scenarios.int_type None) = None
  /\ exists path, "address.geo.lat" = "address" ++ "." ++ path.
Proof.
  apply (struct_columns_are_dotted_paths
           [("city", Plain Scenarios.text_type);
            ("geo", STRUCT [("lat", Plain Scenarios.int_type)])]
           "address"
           (mkColumn "address.geo.lat" Scenarios.int_type None)).
  cbn. right. left. reflexivity.
Defined.

End BigQueryProps.

(** ** The thread-local sampler *)

Module ThreadLocalProps.
Import ThreadLocal.

Lemma samplers_for_set (self : InterfaceConfig) (s : Sampler.SQASampler)
  (tables : list string) :
  samplers_for self (Some s) tables = repeat s (length tables).
Proof.
  induction tables as [|t rest IH]; [reflexivity|].
  cbn. now rewrite IH.
Qed.

(** X5. A worker thread builds its sampler for the table of the first unit it
    runs and hands that same sampler to every later unit, whatever table the
    later unit names. *)
Theorem thread_sampler_is_first_table (self : InterfaceConfig)
  (first : string) (later : list string) :
  samplers_for self None (first :: later)
  = repeat (_get_sampler self first) (S (length later))
  /\ Forall (fun s => Sampler.tablename s = first)
            (samplers_for self None (first :: later)).
Proof.
  assert (E : samplers_for self None (first :: later)
              = repeat (_get_sampler self first) (S (length later))).
  { cbn. now rewrite samplers_for_set. }
  split; [exact E|]. rewrite E.
  apply Forall_forall. intros s Hs.
  apply list_elem_of_In, repeat_spec in Hs. now subst.
Qed.

End ThreadLocalProps.

(** ** More on sampling *)

Module SamplingProps.
Import Registry Sampler.

Lemma stdlib_filter_sublist {A} (f : A -> bool) (l : list A) :
  List.filter f l `sublist_of` l.
Proof.
  induction l as [|x l IH]; [constructor|].
  cbn. destruct (f x); now constructor.
Qed.

Lemma keep_indexed_sublist {A} (keep : nat -> bool) (l : list A) :
  keep_indexed keep l `sublist_of` l.
Proof.
  unfold keep_indexed. revert keep.
  induction l as [|x l IH]; intros keep; [constructor|].
  cbn. destruct (keep 0%nat); cbn; constructor; apply (IH (keep ∘ S)).
Qed.

Lemma omap_length_le {A B} (f : A -> option B) (l : list A) :
  (length (omap f l) <= length l)%nat.
Proof.
  induction l as [|x l IH]; [reflexivity|].
  cbn. destruct (f x); cbn; lia.
Qed.

Lemma table_ref_rows eng :
  map fst (selectable_rows eng table_ref) = table_rows eng.
Proof. cbn. rewrite map_map. cbn. apply map_id. Qed.

Lemma labelled_fst eng m l : map fst (label_rows eng m l) = map fst l.
Proof.
  unfold label_rows.
  apply (SamplerProps.imap_fst_preserved (fun i => Some (rand eng i mod m)%Z)).
Qed.

(** The rows of a percentage sample read from the table. *)
Lemma percentage_rows eng self :
  profile_sample_type self = Some PERCENTAGE ->
  truthy_num (profile_sample self) = true ->
  truthy_str (_profile_sample_query self) = false ->
  _partition_details self = None ->
  handle_rows eng (random_sample eng self)
  = map fst
      (List.filter (random_le (profile_sample self))
         (if decide (engine_dialect eng = Snowflake)
          then keep_indexed
                 (bernoulli eng (default 0%Q (profile_sample self)))
                 (label_rows eng 100 (selectable_rows eng table_ref))
          else label_rows eng 100 (selectable_rows eng table_ref))).
Proof.
  intros Ht Hs Hq Hp.
  unfold random_sample, get_sample_query, sample_query_from.
  rewrite Hq, Hs, Hp. cbn [negb].
  destruct (decide (profile_sample_type self = Some PERCENTAGE));
    [|contradiction].
  unfold handle_rows. cbn [selectable_rows query_rows].
  rewrite map_map. cbn [fst]. reflexivity.
Qed.

(** X6. A percentage sample never invents or repeats rows: as a multiset,
    the rows it returns are contained in the rows of the table, on every
    engine, so it never holds more rows than the table. *)
Theorem percentage_sample_is_part_of_table eng self :
  profile_sample_type self = Some PERCENTAGE ->
  truthy_num (profile_sample self) = true ->
  truthy_str (_profile_sample_query self) = false ->
  _partition_details self = None ->
  handle_rows eng (random_sample eng self) ⊆+ table_rows eng
  /\ (length (handle_rows eng (random_sample eng self))
      <= length (table_rows eng))%nat.
Proof.
  intros Ht Hs Hq Hp.
  assert (Hsub : handle_rows eng (random_sample eng self)
                 ⊆+ table_rows eng).
  { rewrite (percentage_rows eng self Ht Hs Hq Hp).
    replace (table_rows eng)
      with (map fst (label_rows eng 100 (selectable_rows eng table_ref)))
      by (rewrite labelled_fst; apply table_ref_rows).
    apply sublist_submseteq, (fmap_sublist fst).
    etrans; [apply stdlib_filter_sublist|].
    destruct (decide (engine_dialect eng = Snowflake)); [|reflexivity].
    apply keep_indexed_sublist. }
  split; [exact Hsub|]. now apply submseteq_length.
Qed.

Lemma percentage_sample_is_part_of_table_witness :
  handle_rows Scenarios.users_engine
    (random_sample Scenarios.users_engine
       (init "users" (Some (Scenarios.percent_config 50)) None None))
  ⊆+ table_rows Scenarios.users_engine.
Proof.
  refine (proj1 (percentage_sample_is_part_of_table Scenarios.users_engine
            (init "users" (Some (Scenarios.percent_config 50)) None None)
            _ _ _ _)); reflexivity.
Defined.

(** X8. A row-count sample of [N >= 1] rows has [min N total] rows, and once
    [N] reaches the table's row count it holds every row of the table, each
    exactly once. *)
Theorem row_count_sample_is_capped eng self (N : nat) :
  profile_sample self = Some (inject_Z (Z.of_nat N)) ->
  profile_sample_type self <> Some PERCENTAGE ->
  truthy_str (_profile_sample_query self) = false ->
  _partition_details self = None ->
  (1 <= N)%nat ->
  length (handle_rows eng (random_sample eng self))
  = Nat.min N (length (table_rows eng))
  /\ ((length (table_rows eng) <= N)%nat ->
      handle_rows eng (random_sample eng self) ≡ₚ table_rows eng).
Proof.
  intros Hs Ht Hq Hp HN.
  assert (E : handle_rows eng (random_sample eng self)
              = map fst (firstn N (merge_sort label_le
                                     (label_rows eng (table_query_count eng)
                                        (selectable_rows eng table_ref))))).
  { unfold random_sample, get_sample_query, sample_query_from.
    rewrite Hq, Hp, Hs, (SamplerProps.truthy_num_pos N HN). cbn [negb].
    destruct (decide (profile_sample_type self = Some PERCENTAGE));
      [contradiction|].
    unfold handle_rows. cbn [selectable_rows query_rows].
    rewrite map_map. cbn [fst].
    assert (Ha : asint (inject_Z (Z.of_nat N)) = Z.of_nat N).
    { unfold asint.
      assert (Hb : Qle_bool 0 (inject_Z (Z.of_nat N)) = true).
      { apply Qle_bool_iff. rewrite <- (Zle_Qle 0). lia. }
      rewrite Hb. apply Qfloor_Z. }
    rewrite Ha, Nat2Z.id. reflexivity. }
  rewrite E. split.
  - rewrite length_map, length_take, SamplerProps.merge_sort_length,
      SamplerProps.label_rows_length.
    cbn [selectable_rows]. now rewrite length_map.
  - intros Hle. rewrite take_ge.
    + rewrite (merge_sort_Permutation label_le), labelled_fst.
      now rewrite table_ref_rows.
    + rewrite SamplerProps.merge_sort_length, SamplerProps.label_rows_length.
      cbn [selectable_rows]. now rewrite length_map.
Qed.

Lemma row_count_sample_is_capped_witness :
  length (handle_rows Scenarios.users_engine
            (random_sample Scenarios.users_engine
               (init "users" (Some (Scenarios.rows_config 7)) None None)))
  = 3%nat.
Proof.
  refine (proj1 (row_count_sample_is_capped Scenarios.users_engine
            (init "users" (Some (Scenarios.rows_config 7)) None None) 7
            _ _ _ _ _)).
  - reflexivity.
  - discriminate.
  - reflexivity.
  - reflexivity.
  - lia.
Defined.

(** X10. [fetch_sample_data] of a sampler built by [__init__] never returns
    more than 100 rows, with or without a literal query; without one, its
    columns are the table's columns other than "random" and no row is longer
    than the column list. *)
Theorem preview_is_bounded eng table cfg pd q :
  (length (rows (fetch_sample_data eng (init table cfg pd q))) <= 100)%nat
  /\ (truthy_str q = false ->
      columns (fetch_sample_data eng (init table cfg pd q))
      = List.filter (fun c => negb (String.eqb c RANDOM_LABEL))
                    (table_columns eng)
      /\ ~ In RANDOM_LABEL
              (columns (fetch_sample_data eng (init table cfg pd q)))
      /\ Forall (fun r =>
                   (length r
                    <= length (columns (fetch_sample_data eng
                                          (init table cfg pd q))))%nat)
                (rows (fetch_sample_data eng (init table cfg pd q)))).
Proof.
  unfold fetch_sample_data, init. cbn [_profile_sample_query sample_limit].
  split.
  - destruct (truthy_str q); cbn [rows _fetch_sample_data_from_user_query].
    + rewrite length_take. lia.
    + rewrite length_map, length_take. lia.
  - intros Hq. rewrite Hq. cbn [columns rows]. split; [reflexivity|]. split.
    + intros Hin. apply filter_In in Hin as [_ Hneq].
      now rewrite String.eqb_refl in Hneq.
    + apply Forall_forall. intros r Hr. apply list_elem_of_In in Hr.
      apply in_map_iff in Hr as (lr & <- & _).
      apply omap_length_le.
Qed.

Lemma preview_is_bounded_witness :
  columns (fetch_sample_data Scenarios.users_engine
             (init "users" (Some (Scenarios.rows_config 2)) None None))
  = ["id"; "age"].
Proof.
  exact (proj1 (proj2 (preview_is_bounded Scenarios.users_engine "users"
                         (Some (Scenarios.rows_config 2)) None None)
                      eq_refl)).
Defined.

End SamplingProps.

(** ** Which row a median addresses *)

Module MedianRowProps.
Import Median MedianRows.



End MedianRowProps.

(** ** More on the metric handlers *)

Module HandlerProps.
Import Registry Metrics ProfilerInterface HandlerErrors.

Lemma no_codes_unless_snowflake (dialect : string) :
  dialect <> "snowflake" -> OVERFLOW_ERROR_CODES dialect = None.
Proof.
  intros H. unfold OVERFLOW_ERROR_CODES.
  apply String.eqb_neq in H. now rewrite H.
Qed.

Lemma existsb_eqb_false (errno : Z) (codes : list Z) :
  ~ In errno codes -> existsb (Z.eqb errno) codes = false.
Proof.
  intros H. destruct (existsb (Z.eqb errno) codes) eqn:E; [|reflexivity].
  apply existsb_exists in E as (x & Hx & Heq).
  apply Z.eqb_eq in Heq. now subst.
Qed.

Lemma wo_sum_raises runner metrics col w e w' :
  _compute_static_metrics_wo_sum runner metrics col w = (Raises e, w') ->
  exists cause, e = RuntimeError cause.
Proof.
  unfold _compute_static_metrics_wo_sum. unfold_monad.
  intros H. step_outcomes; eauto.
Qed.

Lemma is_overflow_raised runner orig e :
  is_overflow runner orig = Raises e ->
  e = membership_error \/ exists cls, e = missing_errno_error cls.
Proof.
  unfold is_overflow. intros H.
  destruct orig as [dbapi|]; [|discriminate].
  destruct (dbapi_errno dbapi).
  - destruct (OVERFLOW_ERROR_CODES (session_dialect runner));
      [discriminate|]. left. now inversion H.
  - right. exists (dbapi_class dbapi). now inversion H.
Qed.

Lemma raised_kinds runner u sample w e w' :
  _get_metrics runner u sample w = (Raises e, w') ->
  (exists cause, e = RuntimeError cause)
  \/ e = membership_error \/ e = unbound_row_error
  \/ exists cls, e = missing_errno_error cls.
Proof.
  destruct u as [ms|ms c|m c|ms c|m|h ms c]; cbn [_get_metrics].
  - unfold get_metrics_table. unfold_monad.
    intros H. step_outcomes; eauto.
  - unfold get_metrics_static. intros H.
    destruct (select_first_from_sample runner (static_statement ms c))
      as [[row|]|[orig msg|cls msg|cause]] eqn:E;
      unfold bind at 1, lift at 1 in H; rewrite ?E in H; cbn in H.
    all: try (step_outcomes; eauto; fail).
    destruct (is_overflow runner orig) as [[|]|e0] eqn:Ho.
    + unfold bind, logger in H. cbn in H.
      apply wo_sum_raises in H. auto.
    + unfold ret in H. cbn in H. discriminate H.
    + inversion H; subst. right.
      apply is_overflow_raised in Ho as [->|Ho]; auto.
  - unfold get_metrics_query. unfold_monad.
    intros H. step_outcomes; eauto.
  - unfold get_metrics_window. intros H.
    destruct ms as [|m ms]; [discriminate H|].
    destruct (select_first_from_sample runner
                (map (fun metric => fn metric c) (m :: ms)))
      as [row|[orig msg|cls msg|cause]] eqn:E.
    + destruct row as [[|kv row]|]; discriminate H.
    + unfold bind, lift in H.
      destruct (is_overflow runner orig) as [[|]|e0] eqn:Ho.
      * discriminate H.
      * inversion H; subst. auto.
      * inversion H; subst. right.
        apply is_overflow_raised in Ho as [->|Ho]; auto.
    + unfold handle_query_exception in H. unfold_monad.
      inversion H; subst. eauto.
    + unfold handle_query_exception in H. unfold_monad.
      inversion H; subst. eauto.
  - unfold get_metrics_system. unfold_monad.
    intros H. step_outcomes; eauto.
  - unfold get_metrics_default. unfold_monad.
    intros H. step_outcomes; eauto.
Qed.

(** X12. No metric handler touches the processor status, and whatever a
    handler raises is either a [RuntimeError], raised after exactly one
    rollback of the session, or one of three errors of the handler's own
    overflow test (a driver error without [errno], a membership test in
    [None], an unbound [row]), raised without any rollback; a handler that
    returns has rolled nothing back. *)
Theorem handlers_roll_back_only_runtime_errors runner u sample w o w' :
  _get_metrics runner u sample w = (o, w') ->
  processor_status w' = processor_status w
  /\ match o with
     | Returns _ => session_rollbacks w' = session_rollbacks w
     | Raises e =>
         ((exists cause, e = RuntimeError cause)
          /\ session_rollbacks w' = S (session_rollbacks w))
         \/ ((e = membership_error \/ e = unbound_row_error
              \/ exists cls, e = missing_errno_error cls)
             /\ session_rollbacks w' = session_rollbacks w)
     end.
Proof.
  intros H.
  destruct (InterfaceProps.get_metrics_effects _ _ _ _ _ _ H) as [Hst Hrb].
  split; [exact Hst|].
  destruct o as [v|e]; [exact Hrb|].
  destruct (raised_kinds _ _ _ _ _ _ H) as [[cause ->]|[->|[->|[cls ->]]]].
  - left. eauto.
  - right. split; [now left|exact Hrb].
  - right. split; [right; now left|exact Hrb].
  - right. split; [right; right; now exists cls|exact Hrb].
Qed.

Lemma handlers_roll_back_only_runtime_errors_witness :
  session_rollbacks
    (_get_metrics Scenarios.broken_runner
       (StaticUnit [Min] Scenarios.age_col)
       (Sampler.HSelectable Sampler.table_ref) (initial_world None)).2
  = 1%nat.
Proof.
  destruct (handlers_roll_back_only_runtime_errors Scenarios.broken_runner
              (StaticUnit [Min] Scenarios.age_col)
              (Sampler.HSelectable Sampler.table_ref) (initial_world None)
              (Raises (RuntimeError
                         (PyError "OperationalError" "connection lost")))
              (_get_metrics Scenarios.broken_runner
                 (StaticUnit [Min] Scenarios.age_col)
                 (Sampler.HSelectable Sampler.table_ref)
                 (initial_world None)).2
              eq_refl) as [_ [[_ Hrb]|[[Hk|[Hk|[cls Hk]]] _]]].
  - exact Hrb.
  - discriminate Hk.
  - discriminate Hk.
  - discriminate Hk.
Defined.

(** X13. On a dialect without overflow codes (any dialect but "snowflake"), a
    [ProgrammingError] that carries a DBAPI error is never handled as a query
    failure: the static and the window handler both leave through their
    overflow test, with the [AttributeError] of the missing [errno] when the
    driver's error has none and with the [TypeError] of the membership test
    otherwise, and with no log entry and no rollback. *)
Theorem programming_error_without_codes runner metrics col sample w
  (dbapi : DBAPIError) (msg : string) :
  session_dialect runner <> "snowflake" ->
  let raised :=
    match dbapi_errno dbapi with
    | Some _ => membership_error
    | None => missing_errno_error (dbapi_class dbapi)
    end in
  (select_first_from_sample runner (static_statement metrics col)
   = Raises (ProgrammingError (Some dbapi) msg) ->
   _get_metrics runner (StaticUnit metrics col) sample w
   = (Raises raised, w))
  /\ (metrics <> [] ->
      select_first_from_sample runner
        (map (fun metric => fn metric col) metrics)
      = Raises (ProgrammingError (Some dbapi) msg) ->
      _get_metrics runner (WindowUnit metrics col) sample w
      = (Raises raised, w)).
Proof.
  intros Hd raised. apply no_codes_unless_snowflake in Hd. split.
  - intros Hr. cbn [_get_metrics]. unfold get_metrics_static.
    unfold bind at 1, lift at 1. rewrite Hr. cbn.
    unfold is_overflow, raised. destruct (dbapi_errno dbapi); [|reflexivity].
    rewrite Hd. reflexivity.
  - intros Hne Hr. cbn [_get_metrics]. unfold get_metrics_window.
    destruct metrics as [|m ms]; [contradiction|].
    rewrite Hr. unfold bind, lift, is_overflow, raised.
    destruct (dbapi_errno dbapi); [|reflexivity].
    rewrite Hd. reflexivity.
Qed.

Lemma programming_error_without_codes_witness :
  _get_metrics Scenarios.mysql_runner
    (StaticUnit [Min] Scenarios.age_col)
    (Sampler.HSelectable Sampler.table_ref) (initial_world None)
  = (Raises membership_error, initial_world None)
  /\ _get_metrics Scenarios.postgres_runner
       (StaticUnit [Min] Scenarios.age_col)
       (Sampler.HSelectable Sampler.table_ref) (initial_world None)
     = (Raises (missing_errno_error "SyntaxError"), initial_world None).
Proof.
  split.
  - refine (proj1 (programming_error_without_codes Scenarios.mysql_runner
              [Min] Scenarios.age_col (Sampler.HSelectable Sampler.table_ref)
              (initial_world None) (Scenarios.driver_error 1064)
              "syntax error" _) _).
    + discriminate.
    + reflexivity.
  - refine (proj1 (programming_error_without_codes Scenarios.postgres_runner
              [Min] Scenarios.age_col (Sampler.HSelectable Sampler.table_ref)
              (initial_world None) (mkDBAPIError "SyntaxError" None)
              "syntax error" _) _).
    + discriminate.
    + reflexivity.
Defined.

(** X14. On a dialect with overflow codes, a [ProgrammingError] of a static
    unit that is not an overflow (no DBAPI error, or a code outside the
    dialect's codes) is swallowed: the handler returns [None] and leaves the
    world as it was, and the unit is scanned without any failure, log entry or
    rollback. *)
Theorem static_programming_error_is_swallowed env metrics col sample w
  (orig : option DBAPIError) (msg : string) (codes : list Z) :
  select_first_from_sample (runner env) (static_statement metrics col)
  = Raises (ProgrammingError orig msg) ->
  OVERFLOW_ERROR_CODES (session_dialect (runner env)) = Some codes ->
  (forall dbapi, orig = Some dbapi ->
     exists errno, dbapi_errno dbapi = Some errno /\ ~ In errno codes) ->
  _get_metrics (runner env) (StaticUnit metrics col) sample w
  = (Returns VNone, w)
  /\ compute_with_sample env (StaticUnit metrics col) sample w
     = (Returns (VNone, Some (col_name col), Static),
        mkWorld (StatusApi.scanned (processor_status w)
                   (tablename env ++ "." ++ col_name col))
                (session_rollbacks w) (log w)).
Proof.
  intros Hr Hc Hn.
  assert (E : _get_metrics (runner env) (StaticUnit metrics col) sample w
              = (Returns VNone, w)).
  { cbn [_get_metrics]. unfold get_metrics_static.
    unfold bind at 1, lift at 1. rewrite Hr. cbn.
    unfold is_overflow. destruct orig as [dbapi|]; [|reflexivity].
    destruct (Hn dbapi eq_refl) as (errno & -> & Hout).
    rewrite Hc, (existsb_eqb_false errno codes Hout).
    reflexivity. }
  split; [exact E|].
  now rewrite (InterfaceProps.compute_with_sample_returns _ _ _ _ _ _ E).
Qed.

Lemma static_programming_error_is_swallowed_witness :
  _get_metrics Scenarios.rejecting_runner
    (StaticUnit [Min] Scenarios.age_col)
    (Sampler.HSelectable Sampler.table_ref) (initial_world None)
  = (Returns VNone, initial_world None).
Proof.
  refine (proj1 (static_programming_error_is_swallowed
            (Scenarios.env_of Scenarios.rejecting_runner) [Min]
            Scenarios.age_col (Sampler.HSelectable Sampler.table_ref)
            (initial_world None) (Some (Scenarios.driver_error 1003))
            "SQL compilation error" [100046%Z; 100058%Z] _ _ _)).
  - reflexivity.
  - reflexivity.
  - intros dbapi [= <-]. exists 1003%Z. split; [reflexivity|].
    intros [H|[H|[]]]; discriminate H.
Defined.

(** X15. A window unit that hits a [ProgrammingError] on a dialect with
    overflow codes is skipped when the code is an overflow code (the handler
    logs it and returns [None], nothing is rolled back), and otherwise leaves
    the handler with the [UnboundLocalError] of the unassigned [row], again
    without a rollback. *)
Theorem window_programming_error runner metrics col sample w
  (orig : option DBAPIError) (msg : string) (codes : list Z) :
  metrics <> [] ->
  select_first_from_sample runner (map (fun metric => fn metric col) metrics)
  = Raises (ProgrammingError orig msg) ->
  OVERFLOW_ERROR_CODES (session_dialect runner) = Some codes ->
  ((exists dbapi errno,
      orig = Some dbapi /\ dbapi_errno dbapi = Some errno /\ In errno codes) ->
   exists w',
     _get_metrics runner (WindowUnit metrics col) sample w
     = (Returns VNone, w')
     /\ processor_status w' = processor_status w
     /\ session_rollbacks w' = session_rollbacks w
     /\ exists info, log w' = (log w ++ [(INFO, info)])%list)
  /\ ((forall dbapi, orig = Some dbapi ->
         exists errno, dbapi_errno dbapi = Some errno /\ ~ In errno codes) ->
      _get_metrics runner (WindowUnit metrics col) sample w
      = (Raises unbound_row_error, w)).
Proof.
  intros Hne Hr Hc. cbn [_get_metrics]. unfold get_metrics_window.
  destruct metrics as [|m ms]; [contradiction|]. rewrite Hr.
  unfold bind, lift, is_overflow. split.
  - intros (dbapi & errno & -> & -> & Hin). rewrite Hc.
    assert (Hex : existsb (Z.eqb errno) codes = true).
    { apply existsb_exists. exists errno. split; [exact Hin|apply Z.eqb_refl]. }
    rewrite Hex. cbn. eexists. split; [reflexivity|]. cbn. eauto.
  - intros Hn. destruct orig as [dbapi|]; [|reflexivity].
    destruct (Hn dbapi eq_refl) as (errno & -> & Hout).
    rewrite Hc, (existsb_eqb_false errno codes Hout).
    reflexivity.
Qed.

Lemma window_programming_error_witness :
  _get_metrics Scenarios.rejecting_runner
    (WindowUnit [Registered "median" true (fun _ => None)] Scenarios.age_col)
    (Sampler.HSelectable Sampler.table_ref) (initial_world None)
  = (Raises unbound_row_error, initial_world None).
Proof.
  refine (proj2 (window_programming_error Scenarios.rejecting_runner
            [Registered "median" true (fun _ => None)] Scenarios.age_col
            (Sampler.HSelectable Sampler.table_ref) (initial_world None)
            (Some (Scenarios.driver_error 1003)) "SQL compilation error"
            [100046%Z; 100058%Z] _ _ _) _).
  - discriminate.
  - reflexivity.
  - reflexivity.
  - intros dbapi [= <-]. exists 1003%Z. split; [reflexivity|].
    intros [H|[H|[]]]; discriminate H.
Defined.

(** X16. The reshaped result of a multi-valued query metric is columnar: each
    key asked for maps to the list of that key's values, one per result row
    and in row order, and no other key appears. *)
Theorem reshape_is_columnar (results : list Row) (keys : list string)
  (d : gmap string Value) :
  reshape_results results keys = Returns d ->
  (forall k, In k keys ->
     exists vals,
       d !! k = Some (VList vals)
       /\ Forall2 (fun row v => dict row !! k = Some v) results vals)
  /\ (forall k, ~ In k keys -> d !! k = None).
Proof.
  revert d. induction keys as [|k0 rest IH]; intros d H.
  - cbn in H. injection H as <-. split; [intros k []|].
    intros k _. apply lookup_empty.
  - cbn [reshape_results] in H. unfold column_of_results in H.
    destruct (mapM (fun result => dict result !! k0) results) as [vals|] eqn:Em;
      [|discriminate].
    destruct (reshape_results results rest) as [d'|] eqn:Er; [|discriminate].
    injection H as <-. destruct (IH d' eq_refl) as [Hin Hout]. split.
    + intros k Hk. destruct (decide (k = k0)) as [->|Hne].
      * exists vals. split; [apply lookup_insert_eq|].
        now apply mapM_Some_1.
      * rewrite lookup_insert_ne by congruence.
        destruct Hk as [Hk|Hk]; [congruence|]. now apply Hin.
    + intros k Hk. rewrite lookup_insert_ne.
      * apply Hout. intros Hr. apply Hk. now right.
      * intros ->. apply Hk. now left.
Qed.

Lemma reshape_is_columnar_witness :
  exists vals,
    ({["bucket" := VList [VInt 1; VInt 2]]} : gmap string Value) !! "bucket"
    = Some (VList vals)
    /\ Forall2 (fun row v => dict row !! "bucket" = Some v)
               [[("bucket", VInt 1)]; [("bucket", VInt 2)]] vals.
Proof.
  refine (proj1 (reshape_is_columnar
            [[("bucket", VInt 1)]; [("bucket", VInt 2)]] ["bucket"]
            {["bucket" := VList [VInt 1; VInt 2]]} _) "bucket" _).
  - vm_compute. reflexivity.
  - now left.
Defined.

End HandlerProps.

(** ** A whole run *)

Module RunProps.
Import Registry Metrics ProfilerInterface Aggregation.

Lemma extends_refl res : extends res res.
Proof. repeat split; eauto. Qed.

Lemma extends_trans r1 r2 r3 : extends r1 r2 -> extends r2 r3 -> extends r1 r3.
Proof.
  intros (Ht1 & Hc1 & Hs1) (Ht2 & Hc2 & Hs2). split; [set_solver|]. split.
  - intros c e He. destruct (Hc1 c e He) as (e' & He' & Hd).
    destruct (Hc2 c e' He') as (e'' & He'' & Hd').
    exists e''. split; [exact He''|set_solver].
  - auto.
Qed.

Lemma merge_result_extends ts res result : extends res (merge_result ts res result).
Proof.
  destruct result as [[profile col] mt].
  rewrite InterfaceProps.merge_result_cases.
  assert (Hcol : extends res
            (mkProfileResults
               (table res)
               (<[col := dict_update (default ∅ (columns res !! col))
                           (annotated col ts (as_dict profile))]>
                  (columns res))
               (system res))).
  { unfold extends. cbn [table columns system].
    split; [reflexivity|]. split; [|auto].
    intros c e He. destruct (decide (c = col)) as [->|Hne].
    - rewrite lookup_insert_eq, He. cbn. eexists. split; [reflexivity|].
      unfold dict_update. rewrite dom_union_L. set_solver.
    - rewrite lookup_insert_ne by congruence. eauto. }
  destruct mt; try exact Hcol; unfold extends; cbn [table columns system].
  - split; [unfold dict_update; rewrite dom_union_L; set_solver|].
    split; eauto.
  - split; [reflexivity|]. split; eauto.
Qed.

Lemma collect_extends env futures :
  forall i res w res' w',
    collect env i futures res w = (Returns res', w') -> extends res res'.
Proof.
  induction futures as [|f rest IH]; intros i res w res' w' H.
  - cbn in H. unfold ret in H. injection H as <- _. apply extends_refl.
  - destruct f as [|result| |e]; cbn [collect] in H.
    + eauto.
    + eapply extends_trans; [apply merge_result_extends|eauto].
    + unfold bind, logger, raise in H. cbn in H. discriminate.
    + unfold raise in H. discriminate.
Qed.

(** X17. Aggregation only ever adds: through [merge_result], and through the
    whole loop over the futures when it returns, every key of the table map,
    every column and every key of a column that was present before is still
    present afterwards, and "system" stays set once it is. *)
Theorem aggregation_never_drops_keys env i futures res w res' w' :
  collect env i futures res w = (Returns res', w') ->
  dom (table res) ⊆ dom (table res')
  /\ (forall c e, columns res !! c = Some e ->
        exists e', columns res' !! c = Some e' /\ dom e ⊆ dom e')
  /\ (is_Some (system res) -> is_Some (system res')).
Proof. intros H. exact (collect_extends env futures i res w res' w' H). Qed.

Lemma aggregation_never_drops_keys_witness :
  dom (table Scenarios.earlier_results)
  ⊆ dom (table Scenarios.later_results)
  /\ exists e',
       columns Scenarios.later_results !! Some "age" = Some e'
       /\ dom Scenarios.age_profile ⊆ dom e'.
Proof.
  destruct (aggregation_never_drops_keys
              (Scenarios.env_of Scenarios.healthy_runner) 0
              Scenarios.later_futures Scenarios.earlier_results
              (initial_world None) Scenarios.later_results
              (initial_world None) eq_refl) as (Ht & Hc & _).
  split; [exact Ht|].
  apply (Hc (Some "age") Scenarios.age_profile). reflexivity.
Defined.

Lemma collect_settled env futures :
  Forall settled futures ->
  forall i res w, exists res', collect env i futures res w = (Returns res', w).
Proof.
  induction 1 as [|f rest Hf _ IH]; intros i res w.
  - exists res. reflexivity.
  - destruct f as [|result| |e]; cbn in Hf; try contradiction; cbn [collect];
      apply IH.
Qed.

(** X18. A future that timed out aborts the aggregation: when every earlier
    future is settled, the loop logs the error and raises [TimeoutError],
    whatever was merged before and whatever the later futures hold; the
    processor status is not touched. *)
Theorem timeout_aborts_the_run env i done rest res w :
  Forall settled done ->
  exists w',
    collect env i (done ++ TimedOut :: rest)%list res w
    = (Raises (PyError "TimeoutError" ""), w')
    /\ processor_status w' = processor_status w
    /\ session_rollbacks w' = session_rollbacks w
    /\ In (ERROR, "Operation was cancelled due to TimeoutError - ") (log w').
Proof.
  intros Hd. revert i res.
  induction Hd as [|f fs Hf _ IH]; intros i res.
  - cbn. unfold bind, logger, raise. cbn. eexists. split; [reflexivity|].
    cbn. repeat split. apply in_or_app. right. now left.
  - destruct f as [|result| |e]; cbn in Hf; try contradiction;
      cbn [app collect]; apply IH.
Qed.

Lemma timeout_aborts_the_run_witness :
  exists w',
    collect (Scenarios.env_of Scenarios.healthy_runner) 0
      [Cancelled; Completed (VNone, Some "age", Static); TimedOut;
       Completed (VNone, None, Table)]
      empty_results (initial_world None)
    = (Raises (PyError "TimeoutError" ""), w')
    /\ processor_status w' = processor_status (initial_world None).
Proof.
  destruct (timeout_aborts_the_run (Scenarios.env_of Scenarios.healthy_runner)
              0 [Cancelled; Completed (VNone, Some "age", Static)]
              [Completed (VNone, None, Table)] empty_results
              (initial_world None)) as (w' & Hrun & Hst & _).
  - repeat constructor.
  - exists w'. split; [exact Hrun|exact Hst].
Defined.

(** What one unit leaves behind when the sample is there. *)
Lemma unit_runs env u sample w :
  prepare_sample env = Returns sample ->
  exists row w',
    compute_metrics_in_thread env u w
    = (Returns (row, option_map col_name (unit_column u), unit_type u), w')
    /\ StatusApi.records (processor_status w')
       = (StatusApi.records (processor_status w) ++ [scan_id env u])%list
    /\ (exists added,
          StatusApi.failures (processor_status w')
          = (StatusApi.failures (processor_status w) ++ added)%list
          /\ (length added <= 1)%nat)
    /\ (session_rollbacks w <= session_rollbacks w'
        <= S (session_rollbacks w))%nat.
Proof.
  intros Hs. unfold compute_metrics_in_thread, bind, lift, logger. rewrite Hs.
  match goal with
  | |- context [compute_with_sample env u sample ?w0] => set (w1 := w0)
  end.
  destruct (_get_metrics (runner env) u sample w1) as [[v|exc] w2] eqn:H;
    destruct (InterfaceProps.get_metrics_effects _ _ _ _ _ _ H) as [Hst Hrb];
    cbn in Hrb.
  - rewrite (InterfaceProps.compute_with_sample_returns _ _ _ _ _ _ H).
    eexists _, _. split; [reflexivity|]. unfold after_unit. cbn.
    rewrite Hst. split; [reflexivity|]. split.
    + exists []. rewrite app_nil_r. split; [reflexivity|]. cbn. lia.
    + subst w1. cbn in Hrb. lia.
  - rewrite (InterfaceProps.compute_with_sample_raises _ _ _ _ _ _ H).
    eexists _, _. split; [reflexivity|]. unfold after_unit.
    cbn [processor_status session_rollbacks].
    split; [unfold StatusApi.scanned; cbn; now rewrite Hst|]. split.
    + eexists. unfold StatusApi.scanned. cbn [StatusApi.failures].
      rewrite InterfaceProps.failed_profiler_failures, Hst.
      split; [reflexivity|]. cbn. lia.
    + subst w1. destruct exc; cbn in Hrb; lia.
Qed.

Lemma submit_all_runs env sample units :
  prepare_sample env = Returns sample ->
  forall w,
    exists futures w',
      submit_all env units w = (Returns futures, w')
      /\ Forall2 completed_for units futures
      /\ StatusApi.records (processor_status w')
         = (StatusApi.records (processor_status w)
              ++ map (scan_id env) units)%list
      /\ (exists added,
            StatusApi.failures (processor_status w')
            = (StatusApi.failures (processor_status w) ++ added)%list
            /\ (length added <= length units)%nat)
      /\ (session_rollbacks w <= session_rollbacks w'
          <= session_rollbacks w + length units)%nat.
Proof.
  intros Hs. induction units as [|u rest IH]; intros w.
  - exists [], w. cbn. split; [reflexivity|]. split; [constructor|].
    split; [now rewrite app_nil_r|]. split; [|lia].
    exists []. rewrite app_nil_r. split; [reflexivity|]. cbn. lia.
  - destruct (unit_runs env u sample w Hs)
      as (row & w1 & Hrun & Hrec & (a1 & Hf1 & Hl1) & Hrb1).
    destruct (IH w1) as (fs & w2 & Hrest & Hall & Hrec2 & (a2 & Hf2 & Hl2) & Hrb2).
    exists (Completed (row, option_map col_name (unit_column u), unit_type u)
              :: fs), w2.
    split.
    { cbn [submit_all]. unfold bind, try_except, ret. rewrite Hrun.
      cbn. unfold bind, ret in Hrest |- *. rewrite Hrest. reflexivity. }
    split; [constructor; [now exists row|exact Hall]|].
    split; [rewrite Hrec2, Hrec; cbn [map]; now rewrite <- app_assoc|].
    split.
    + exists (a1 ++ a2)%list. rewrite Hf2, Hf1, app_assoc.
      split; [reflexivity|]. rewrite length_app. cbn [length]. lia.
    + cbn [length]. lia.
Qed.

Lemma completed_are_settled units futures :
  Forall2 completed_for units futures -> Forall settled futures.
Proof.
  induction 1 as [|u f us fs (row & ->) _ IH]; constructor; [exact I|exact IH].
Qed.

Lemma collect_keeps_columns env futures :
  forall units i res w res' w',
    Forall2 completed_for units futures ->
    collect env i futures res w = (Returns res', w') ->
    forall u c, In u units -> unit_column u = Some c ->
                is_Some (columns res' !! Some (col_name c)).
Proof.
  induction futures as [|f rest IH]; intros units i res w res' w' Hall Hrun u c Hu Hc.
  - inversion Hall; subst. destruct Hu.
  - inversion Hall as [|u0 f0 us fs (row & ->) Hrest]; subst.
    cbn [collect] in Hrun. destruct Hu as [<-|Hu]; [|eauto].
    destruct (collect_extends _ _ _ _ _ _ _ Hrun) as (_ & Hcols & _).
    destruct (InterfaceProps.column_unit_type u0 c Hc) as [HT HS].
    rewrite Hc in Hcols. cbn [option_map] in Hcols.
    rewrite InterfaceProps.merge_result_cases in Hcols.
    destruct (unit_type u0); try congruence; cbn [columns] in Hcols;
      edestruct Hcols as (e' & He' & _);
      try (apply lookup_insert_eq); rewrite He'; eauto.
Qed.

(** X19. On the schedule that runs the units one after the other, and when
    the thread's sample can be obtained, [get_all_metrics] always returns: the
    processor status gains the identifier of every unit, in submission order,
    at most one failure and one rollback per unit, and the result holds an
    entry in [columns] for the column of every unit that has one, whether the
    unit succeeded or failed. *)
Theorem run_scans_every_unit env sample units w :
  prepare_sample env = Returns sample ->
  exists res w',
    get_all_metrics env units w = (Returns res, w')
    /\ StatusApi.records (processor_status w')
       = (StatusApi.records (processor_status w)
            ++ map (scan_id env) units)%list
    /\ (exists added,
          StatusApi.failures (processor_status w')
          = (StatusApi.failures (processor_status w) ++ added)%list
          /\ (length added <= length units)%nat)
    /\ (session_rollbacks w <= session_rollbacks w'
        <= session_rollbacks w + length units)%nat
    /\ forall u c, In u units -> unit_column u = Some c ->
                   is_Some (columns res !! Some (col_name c)).
Proof.
  intros Hs. unfold get_all_metrics, bind, logger.
  match goal with
  | |- context [submit_all env units ?w0] => set (w1 := w0)
  end.
  destruct (submit_all_runs env sample units Hs w1)
    as (fs & w2 & Hrun & Hall & Hrec & Hfail & Hrb).
  rewrite Hrun.
  destruct (collect_settled env fs (completed_are_settled _ _ Hall)
              0%nat empty_results w2) as (res & Hcol).
  exists res, w2. split; [exact Hcol|]. split; [exact Hrec|].
  split; [exact Hfail|]. split; [exact Hrb|].
  intros u c Hu Hc.
  exact (collect_keeps_columns env fs units _ _ _ _ _ Hall Hcol u c Hu Hc).
Qed.

Lemma run_scans_every_unit_witness :
  exists res w',
    get_all_metrics (Scenarios.env_of Scenarios.broken_runner)
      [TableUnit []; StaticUnit [Min] Scenarios.age_col]
      (initial_world None)
    = (Returns res, w')
    /\ StatusApi.records (processor_status w') = ["users"; "users.age"].
Proof.
  destruct (run_scans_every_unit (Scenarios.env_of Scenarios.broken_runner)
              (Sampler.HSelectable Sampler.table_ref)
              [TableUnit []; StaticUnit [Min] Scenarios.age_col]
              (initial_world None) eq_refl)
    as (res & w' & Hrun & Hrec & _).
  exists res, w'. split; [exact Hrun|exact Hrec].
Defined.

Lemma unit_fails env exc u w :
  prepare_sample env = Raises exc ->
  exists w',
    compute_metrics_in_thread env u w = (Raises exc, w')
    /\ processor_status w' = processor_status w
    /\ session_rollbacks w' = session_rollbacks w.
Proof.
  intros Hs. unfold compute_metrics_in_thread, bind, lift, logger.
  rewrite Hs. eexists. split; [reflexivity|]. split; reflexivity.
Qed.

Lemma submit_all_fails env exc units :
  prepare_sample env = Raises exc ->
  forall w,
    exists w',
      submit_all env units w = (Returns (map (fun _ => Failed exc) units), w')
      /\ processor_status w' = processor_status w
      /\ session_rollbacks w' = session_rollbacks w.
Proof.
  intros Hs. induction units as [|u rest IH]; intros w.
  - exists w. repeat split.
  - destruct (unit_fails env exc u w Hs) as (w1 & Hu & Hst1 & Hrb1).
    destruct (IH w1) as (w2 & Hr & Hst2 & Hrb2).
    exists w2. split.
    + cbn [submit_all map]. unfold bind, try_except, ret. rewrite Hu.
      unfold bind, ret in Hr. rewrite Hr. reflexivity.
    + split; congruence.
Qed.

(** X20. When the thread's sample cannot be obtained (the exception is raised
    before the guarded computation), no unit is scanned and no failure is
    recorded: every worker raises, and [get_all_metrics] re-raises that
    exception at the first future instead of returning a result. *)
Theorem run_fails_when_sample_fails env exc u units w :
  prepare_sample env = Raises exc ->
  exists w',
    get_all_metrics env (u :: units) w = (Raises exc, w')
    /\ processor_status w' = processor_status w
    /\ session_rollbacks w' = session_rollbacks w.
Proof.
  intros Hs. unfold get_all_metrics, bind, logger.
  match goal with
  | |- context [submit_all env (u :: units) ?w0] =>
      destruct (submit_all_fails env exc (u :: units) Hs w0)
        as (w' & Hr & Hst & Hrb)
  end.
  rewrite Hr. cbn [map collect]. unfold raise.
  exists w'. split; [reflexivity|]. split; [exact Hst|exact Hrb].
Qed.

Lemma run_fails_when_sample_fails_witness :
  exists w',
    get_all_metrics
      (mkEnv "users" "worker-0" 5 Scenarios.healthy_runner
             (Raises (PyError "OperationalError" "count failed"))
             (fun _ => 0%Z))
      [StaticUnit [Min] Scenarios.age_col] (initial_world None)
    = (Raises (PyError "OperationalError" "count failed"), w')
    /\ processor_status w' = processor_status (initial_world None).
Proof.
  destruct (run_fails_when_sample_fails
              (mkEnv "users" "worker-0" 5 Scenarios.healthy_runner
                     (Raises (PyError "OperationalError" "count failed"))
                     (fun _ => 0%Z))
              (PyError "OperationalError" "count failed")
              (StaticUnit [Min] Scenarios.age_col) [] (initial_world None)
              eq_refl) as (w' & Hrun & Hst & _).
  exists w'. split; [exact Hrun|exact Hst].
Defined.

End RunProps.

(** ** Which columns the static metrics apply to *)

Module ApplicabilityProps.
Import Registry Metrics.

(** X21. Mean, sum and stddev apply to exactly the same columns and aggregate
    the same inner expression (the column, or its length for text); min
    applies wherever they do, and to date-time columns besides. *)
Theorem static_metrics_share_applicability (col : Column) :
  (is_Some (fn Mean col) <-> is_Some (fn Sum col))
  /\ (is_Some (fn Mean col) <-> is_Some (fn StdDev col))
  /\ (forall inner,
        fn Mean col = Some ("mean", func_avg inner) ->
        fn Sum col = Some ("sum", SumFn inner)
        /\ fn StdDev col = Some ("stddev", StdDevFn inner))
  /\ (is_Some (fn Mean col) -> is_Some (fn Min col))
  /\ (is_date_time (col_type col) = true ->
      fn Min col = Some ("min", MinFn (column (col_name col) (col_type col)))
      /\ fn Mean col = None).
Proof.
  destruct col as [nm [tn fam dec] tbl].
  destruct fam; cbn; repeat split; try intros inner H;
    try (intros [? H]; discriminate H);
    try (intros; eexists; reflexivity);
    try discriminate;
    try congruence;
    try reflexivity.
Qed.

Lemma static_metrics_share_applicability_witness :
  fn Sum Scenarios.age_col
  = Some ("sum", SumFn (column "age" Scenarios.int_type))
  /\ fn StdDev Scenarios.age_col
     = Some ("stddev", StdDevFn (column "age" Scenarios.int_type)).
Proof.
  destruct (static_metrics_share_applicability Scenarios.age_col)
    as (_ & _ & Hinner & _).
  exact (Hinner (column "age" Scenarios.int_type) eq_refl).
Defined.

End ApplicabilityProps.

(** ** The profiler source *)

Module ProfilerSourceProps.
Import ProfilerSource.

(** X22. [_get_config_for_table] returns the first table configuration whose
    fully qualified name is the entity's, and [None] exactly when no
    configuration carries that name (in particular for an absent or empty
    list). *)
Theorem config_for_table_is_first_match (entity : Table)
  (tableConfig : option (list TableConfig)) :
  match _get_config_for_table entity tableConfig with
  | Some c =>
      fullyQualifiedName c = entity_fqn entity
      /\ exists before after,
           tableConfig = Some (before ++ c :: after)%list
           /\ Forall (fun c' => fullyQualifiedName c' <> entity_fqn entity)
                     before
  | None =>
      Forall (fun c' => fullyQualifiedName c' <> entity_fqn entity)
             (default [] tableConfig)
  end.
Proof.
  destruct tableConfig as [configs|]; [|constructor].
  assert (H : match List.find (fun table_config =>
                     String.eqb (fullyQualifiedName table_config)
                                (entity_fqn entity)) configs with
              | Some c =>
                  fullyQualifiedName c = entity_fqn entity
                  /\ exists before after,
                       configs = (before ++ c :: after)%list
                       /\ Forall (fun c' =>
                                    fullyQualifiedName c' <> entity_fqn entity)
                                 before
              | None =>
                  Forall (fun c' => fullyQualifiedName c' <> entity_fqn entity)
                         configs
              end).
  { induction configs as [|c0 rest IH]; [constructor|].
    cbn [List.find].
    destruct (String.eqb (fullyQualifiedName c0) (entity_fqn entity)) eqn:E.
    - apply String.eqb_eq in E. split; [exact E|].
      exists [], rest. split; [reflexivity|constructor].
    - apply String.eqb_neq in E.
      destruct (List.find _ rest) as [c|].
      + destruct IH as (Hc & before & after & -> & Hb). split; [exact Hc|].
        exists (c0 :: before), after. split; [reflexivity|].
        now constructor.
      + now constructor. }
  unfold _get_config_for_table. destruct configs as [|c0 rest]; [constructor|].
  destruct (List.find _ (c0 :: rest)) as [c|].
  - destruct H as (Hc & before & after & -> & Hb). split; [exact Hc|].
    exists before, after. split; [reflexivity|exact Hb].
  - exact H.
Qed.

Lemma find_first_match (entity : Table) (before after : list TableConfig)
  (c : TableConfig) :
  Forall (fun c' => fullyQualifiedName c' <> entity_fqn entity) before ->
  fullyQualifiedName c = entity_fqn entity ->
  _get_config_for_table entity (Some (before ++ c :: after)%list) = Some c.
Proof.
  intros Hb Hc.
  assert (H : List.find (fun table_config =>
                String.eqb (fullyQualifiedName table_config)
                           (entity_fqn entity))
                (before ++ c :: after)%list = Some c).
  { induction Hb as [|c0 rest Hc0 _ IH]; cbn [app List.find].
    - apply String.eqb_eq in Hc. now rewrite Hc.
    - apply String.eqb_neq in Hc0. now rewrite Hc0. }
  unfold _get_config_for_table.
  destruct (before ++ c :: after)%list as [|c0 rest] eqn:E; [|exact H].
  now destruct before.
Qed.

(** X23. Only the first workflow configuration that carries the entity's
    name counts when [get_profiler_runner] picks the columns: its
    [columnConfig], when it has one, gives both lists alone (an unset list
    stays unset), and when it has none the entity's own profiler
    configuration gives them, whatever the configurations after it say. *)
Theorem first_matching_config_decides_columns (entity : Table)
  (before after : list TableConfig) (c : TableConfig) :
  Forall (fun c' => fullyQualifiedName c' <> entity_fqn entity) before ->
  fullyQualifiedName c = entity_fqn entity ->
  get_profiler_runner_columns entity (Some (before ++ c :: after)%list)
  = match columnConfig c with
    | Some cc => (includeColumns cc, excludeColumns cc)
    | None => (tableProfilerConfig entity ≫= includeColumns,
               tableProfilerConfig entity ≫= excludeColumns)
    end.
Proof.
  intros Hb Hc. unfold get_profiler_runner_columns.
  rewrite (find_first_match entity before after c Hb Hc).
  destruct c as [fqn [cc|]]; cbn; [reflexivity|].
  now destruct (tableProfilerConfig entity).
Qed.

Lemma first_matching_config_decides_columns_witness :
  get_profiler_runner_columns
    (mkTable "db.users" (Some (mkColumnConfig (Some ["id"]) None)))
    (Some [ mkTableConfig "db.orders"
              (Some (mkColumnConfig (Some ["total"]) None));
            mkTableConfig "db.users" None;
            mkTableConfig "db.users"
              (Some (mkColumnConfig (Some ["age"]) (Some ["id"]))) ])
  = (Some ["id"], None).
Proof.
  apply (first_matching_config_decides_columns
           (mkTable "db.users" (Some (mkColumnConfig (Some ["id"]) None)))
           [mkTableConfig "db.orders"
              (Some (mkColumnConfig (Some ["total"]) None))]
           [mkTableConfig "db.users"
              (Some (mkColumnConfig (Some ["age"]) (Some ["id"])))]
           (mkTableConfig "db.users" None)).
  - repeat constructor. discriminate.
  - reflexivity.
Defined.

End ProfilerSourceProps.
